(** * Order management backend: pricing engine and order consistency

    A shallow embedding of [src/main.py] and [src/schemas.py].

    - [Binary64]   Python's [float]: IEEE 754 binary64 arithmetic, the
                   conversion [int -> float] and the builtin [round(x, 2)].
    - [Schemas]    the models [Customer] and [OrderItem] of [schemas.py].
    - [Pricing]    [compute_totals].
    - [Db]         identifiers, documents and the two collections.
    - [Api]        the handlers of [main.py] that read or write one
                   document: [create_customer], [get_customer],
                   [update_customer], [delete_customer], [create_order],
                   [get_order], [update_order] and [delete_order].
    - [Listing]    [list_orders].  [list_customers], [read_root] and
                   [test_database] write nothing and are left out.
    - The facts proved about them, and last the numbered claims. *)

From Stdlib Require Import ZArith NArith Lia Bool List Ascii String.
From Stdlib Require Import Floats.SpecFloat.
From stdpp Require Import gmap strings list fin_maps sorting.

Local Open Scope Z_scope.

(* ===================================================================== *)
(** * Python floats *)
(* ===================================================================== *)

Module Binary64.

(** A Python [float] is an IEEE 754 binary64 value: 53 bits of
    precision, infinities at exponent 1024. *)
Definition prec : Z := 53.
Definition emax : Z := 1024.

Abbreviation float := spec_float.

Definition is_binary64 (x : float) : bool := valid_binary prec emax x.

Definition fadd : float -> float -> float := SFadd prec emax.
Definition fsub : float -> float -> float := SFsub prec emax.
Definition fmul : float -> float -> float := SFmul prec emax.
Definition fdiv : float -> float -> float := SFdiv prec emax.
Definition fle  : float -> float -> bool := SFleb.
Definition feq  : float -> float -> bool := SFeqb.

(** The nearest binary64 value to the integer [z] (ties to even); an
    infinity when [z] is out of range. *)
Definition of_Z (z : Z) : float := binary_normalize prec emax z 0 false.

(** The nearest binary64 value to [m * 2^e]. *)
Definition dyadic (m e : Z) : float := binary_normalize prec emax m e false.

(** The nearest binary64 value to the decimal literal [n / 10^k], as a
    JSON or Python literal with [k] fractional digits denotes it. *)
Definition decimal (n : Z) (k : Z) : float :=
  match n with
  | Z0 => S754_zero false
  | Zpos p => fdiv (S754_finite false p 0) (S754_finite false (Z.to_pos (10 ^ k)) 0)
  | Zneg p => fdiv (S754_finite true p 0) (S754_finite false (Z.to_pos (10 ^ k)) 0)
  end.

Definition zero : float := S754_zero false.
Definition hundred : float := of_Z 100.

(** [math.isfinite]: neither an infinity nor NaN. *)
Definition is_finite (x : float) : bool :=
  match x with
  | S754_zero _ | S754_finite _ _ _ => true
  | _ => false
  end.

(** [0 <= x <= 100], the range of a percentage. *)
Definition is_percent (x : float) : bool := fle zero x && fle x hundred.

(** [float(z)] for a Python [int]: correctly rounded, and
    [OverflowError] ([None]) when the rounded value is not finite. *)
Definition float_of_int (z : Z) : option float :=
  match of_Z z with
  | S754_infinity _ => None
  | x => Some x
  end.

(** [num / den] rounded to an integer, ties to even ([den > 0]). *)
Definition div_half_even (num den : Z) : Z :=
  let q := num / den in
  let r := num mod den in
  match 2 * r ?= den with
  | Lt => q
  | Gt => q + 1
  | Eq => if Z.even q then q else q + 1
  end.

(** The integer nearest to [100 * m * 2^e], ties to even. *)
Definition scaled_cents (m : positive) (e : Z) : Z :=
  match e with
  | Zneg k => div_half_even (100 * Zpos m) (2 ^ Zpos k)
  | _ => 100 * Zpos m * 2 ^ e
  end.

(** The builtin [round(x, 2)] on a float.  Infinities and NaN round to
    themselves.  A finite [x] is first converted to the decimal string
    with two fractional digits that is nearest to its exact value (ties
    to even), and that string is then read back as the nearest float;
    the sign of [x] is kept, also when the digits are all zero. *)
Definition round2 (x : float) : float :=
  match x with
  | S754_finite s m e =>
      match scaled_cents m e with
      | Zpos n => fdiv (S754_finite s n 0) (S754_finite false 100 0)
      | _ => S754_zero s
      end
  | _ => x
  end.

End Binary64.

Import Binary64.

(* ===================================================================== *)
(** * Exceptions *)
(* ===================================================================== *)

Inductive exn : Type :=
| HTTPException (status_code : Z) (detail : string)
| InvalidId          (* bson.errors.InvalidId, raised by [ObjectId(s)] *)
| OverflowError      (* int too large to convert to float *)
| ValidationError.   (* pydantic, raised by a model constructor *)

Inductive result (A : Type) : Type :=
| Ok (a : A)
| Raise (e : exn).
Arguments Ok {A} a.
Arguments Raise {A} e.

(** Sequencing: an exception raised by the first computation skips the
    rest.  [x ← r; k] runs [r] and binds its value in [k]. *)
#[global] Instance result_bind : MBind result :=
  fun A B (k : A -> result B) (r : result A) =>
    match r with
    | Ok a => k a
    | Raise e => Raise e
    end.

#[global] Instance result_ret : MRet result := fun A a => Ok a.

(* ===================================================================== *)
(** * schemas.py *)
(* ===================================================================== *)

Module Schemas.

Record Customer := {
  c_name : string;
  c_email : string;
  c_phone : option string;
  c_address : option string;
  c_note : option string;
}.

Record OrderItem := {
  name : string;
  quantity : Z;
  unit_price : float;
  discount_percent : float;
}.

(** The field constraints of [OrderItem]: [quantity >= 1],
    [unit_price >= 0], [0 <= discount_percent <= 100]. *)
Definition OrderItem_valid (it : OrderItem) : bool :=
  (1 <=? quantity it)
  && fle zero (unit_price it)
  && fle zero (discount_percent it)
  && fle (discount_percent it) hundred.

End Schemas.

Import Schemas.

(* ===================================================================== *)
(** * The pricing engine *)
(* ===================================================================== *)

Module Pricing.

(** The dictionary [compute_totals] returns, with keys ["subtotal"],
    ["discount_total"] and ["total"]. *)
Record Totals := {
  t_subtotal : float;
  t_discount_total : float;
  t_total : float;
}.

(** [line_sub = it.quantity * it.unit_price] *)
Definition line_sub (it : OrderItem) : result float :=
  match float_of_int (quantity it) with
  | Some q => Ok (fmul q (unit_price it))
  | None => Raise OverflowError
  end.

(** [line_discount = line_sub * (it.discount_percent / 100.0)] *)
Definition line_discount (ls : float) (it : OrderItem) : float :=
  fmul ls (fdiv (discount_percent it) hundred).

(** The [for] loop of [compute_totals]; the accumulator is
    [(subtotal, item_discount_total)]. *)
Fixpoint accumulate (items : list OrderItem) (acc : float * float)
  : result (float * float) :=
  match items with
  | [] => Ok acc
  | it :: rest =>
      ls ← line_sub it;
      accumulate rest (fadd (fst acc) ls, fadd (snd acc) (line_discount ls it))
  end.

Definition after_item_discounts (acc : float * float) : float :=
  fsub (fst acc) (snd acc).

Definition order_discount (acc : float * float) (order_discount_percent : float) : float :=
  fmul (after_item_discounts acc) (fdiv order_discount_percent hundred).

Definition compute_totals (items : list OrderItem) (order_discount_percent : float)
  : result Totals :=
  acc ← accumulate items (zero, zero);
  let od := order_discount acc order_discount_percent in
  let total_discount := fadd (snd acc) od in
  let total := fsub (after_item_discounts acc) od in
  Ok {| t_subtotal := round2 (fst acc);
        t_discount_total := round2 total_discount;
        t_total := round2 total |}.

End Pricing.

Import Pricing.

(* ===================================================================== *)
(** * The document store *)
(* ===================================================================== *)

Module Db.

(** ** Object identifiers

    An [ObjectId] holds the bytes its constructor read.  [ObjectId(s)]
    takes a string of 24 characters and reads it with [bytes.fromhex]:
    pairs of hexadecimal digits, in either case, with ASCII blanks
    skipped between the pairs; a string of another length, a character
    that is neither a digit nor a blank, or a digit without its partner
    raises [InvalidId].  The 24 digits of an identifier spell twelve
    bytes, here the number below [2^96] they write.  A string with
    blanks spells fewer: the constructor accepts it all the same, and
    the identifier it gives is that of no document, the database handing
    out twelve bytes each time.  Such a short identifier is a number
    from [2^96] on, made of its length and its bytes. *)
Abbreviation oid := N.

Definition hex_value (c : ascii) : option N :=
  let n := N_of_ascii c in
  if (48 <=? n)%N && (n <=? 57)%N then Some (n - 48)%N
  else if (97 <=? n)%N && (n <=? 102)%N then Some (n - 87)%N
  else if (65 <=? n)%N && (n <=? 70)%N then Some (n - 55)%N
  else None.

(** The blanks [bytes.fromhex] skips: space, and tab to carriage return. *)
Definition is_space (c : ascii) : bool :=
  let n := N_of_ascii c in
  (n =? 32)%N || ((9 <=? n)%N && (n <=? 13)%N).

(** [bytes.fromhex]: how many bytes were read, and the number they
    write, most significant byte first; [None] where it raises. *)
Fixpoint fromhex (s : string) (count acc : N) : option (N * N) :=
  match s with
  | EmptyString => Some (count, acc)
  | String c rest =>
      if is_space c then fromhex rest count acc
      else
        match hex_value c, rest with
        | Some top, String c' rest' =>
            match hex_value c' with
            | Some bot => fromhex rest' (count + 1)%N (256 * acc + (16 * top + bot))%N
            | None => None
            end
        | _, _ => None
        end
  end.

Definition oid_of_bytes (count value : N) : oid :=
  if (count =? 12)%N then value else (2 ^ 96 * (count + 1) + value)%N.

Definition ObjectId (s : string) : result oid :=
  if (String.length s =? 24)%nat then
    match fromhex s 0%N 0%N with
    | Some (count, value) => Ok (oid_of_bytes count value)
    | None => Raise InvalidId
    end
  else Raise InvalidId.

Definition hex_digit (d : N) : ascii :=
  ascii_of_N (if (d <? 10)%N then 48 + d else 87 + d)%N.

Fixpoint hex_digits (n : nat) (k : N) (acc : string) : string :=
  match n with
  | O => acc
  | S n' => hex_digits n' (k / 16)%N (String (hex_digit (k mod 16)%N) acc)
  end.

(** [str(oid)] of a twelve-byte identifier: 24 lower-case hexadecimal
    digits. *)
Definition str (k : oid) : string := hex_digits 24 k EmptyString.

(** ** Documents

    A stored item is the dictionary [OrderItem.model_dump()] gives, with
    the four keys of the model: it is kept as the record itself.  An
    order document carries the keys [create_order] writes; the three
    derived ones have the names [compute_totals] gives them. *)
Record OrderData := {
  customer_id : string;
  status : string;
  order_discount_percent : float;
  items : list OrderItem;
  subtotal : float;
  discount_total : float;
  total : float;
}.

Record OrderDoc := {
  o_id : oid;
  o_data : OrderData;
  o_created_at : N;
  o_updated_at : N;
}.

Record CustomerDoc := {
  cd_id : oid;
  cd_data : Customer;
  cd_created_at : N;
  cd_updated_at : N;
}.

(** The database [db]: the two collections, keyed by [_id], with the
    source of fresh identifiers and the clock of the insertions. *)
Record Store := {
  customer : gmap N CustomerDoc;
  order : gmap N OrderDoc;
  next_id : N;
  clock : N;
}.

Definition empty_db : Store :=
  {| customer := ∅; order := ∅; next_id := 0%N; clock := 0%N |}.

(** ** Handlers run against the store and may raise

    A computation takes the store and gives back its outcome with the
    store as it left it: what was written before an exception stays
    written. *)
Definition M (A : Type) : Type := Store -> result A * Store.

#[global] Instance M_ret : MRet M := fun A a s => (Ok a, s).

#[global] Instance M_bind : MBind M :=
  fun A B (k : A -> M B) (m : M A) s =>
    match m s with
    | (Ok a, s') => k a s'
    | (Raise e, s') => (Raise e, s')
    end.

Definition raise {A} (e : exn) : M A := fun s => (Raise e, s).

Definition lift {A} (r : result A) : M A := fun s => (r, s).

(** ** The collection operations

    [db["customer"].find_one({"_id": k})] and its sibling for orders. *)
Definition find_one_customer (k : oid) : M (option CustomerDoc) :=
  fun s => (Ok (customer s !! k), s).

Definition find_one_order (k : oid) : M (option OrderDoc) :=
  fun s => (Ok (order s !! k), s).

(** [db["customer"].find_one({"email": e})]: some customer whose email
    is exactly [e], if there is one.  The callers only test the answer
    for presence, so which of several matches comes back is immaterial. *)
Definition find_one_customer_by_email (e : string) : M (option CustomerDoc) :=
  fun s =>
    (Ok ((fun r => snd (snd r)) <$>
           list_find (fun kv : N * CustomerDoc => c_email (cd_data (snd kv)) = e)
                     (map_to_list (customer s))),
     s).

(** Modelled from the spec: [database.py], which defines [db] and
    [create_document], is not among the sources.  The spec has the
    engine consume an [insert] from its collaborator and asks that a
    persisted document keep a creation timestamp.  Here an insertion
    stores the document under an identifier never handed out before,
    stamps it with the clock, and returns the identifier as a string. *)
Definition create_document_customer (data : Customer) : M string :=
  fun s =>
    let k := next_id s in
    let doc := {| cd_id := k; cd_data := data;
                  cd_created_at := clock s; cd_updated_at := clock s |} in
    (Ok (str k),
     {| customer := <[k := doc]> (customer s); order := order s;
        next_id := N.succ k; clock := N.succ (clock s) |}).

(** Modelled from the spec: as [create_document_customer], for the
    order collection. *)
Definition create_document_order (data : OrderData) : M string :=
  fun s =>
    let k := next_id s in
    let doc := {| o_id := k; o_data := data;
                  o_created_at := clock s; o_updated_at := clock s |} in
    (Ok (str k),
     {| customer := customer s; order := <[k := doc]> (order s);
        next_id := N.succ k; clock := N.succ (clock s) |}).

(** [update_one({"_id": k}, {"$set": ...})]; the answer is
    [matched_count]. *)
Definition update_one_customer (k : oid) (set : Customer) : M nat :=
  fun s =>
    match customer s !! k with
    | Some d =>
        (Ok 1%nat,
         {| customer := <[k := {| cd_id := cd_id d; cd_data := set;
                                  cd_created_at := cd_created_at d;
                                  cd_updated_at := cd_updated_at d |}]> (customer s);
            order := order s; next_id := next_id s; clock := clock s |})
    | None => (Ok 0%nat, s)
    end.

Definition update_one_order (k : oid) (set : OrderData -> OrderData) : M nat :=
  fun s =>
    match order s !! k with
    | Some d =>
        (Ok 1%nat,
         {| customer := customer s;
            order := <[k := {| o_id := o_id d; o_data := set (o_data d);
                               o_created_at := o_created_at d;
                               o_updated_at := o_updated_at d |}]> (order s);
            next_id := next_id s; clock := clock s |})
    | None => (Ok 0%nat, s)
    end.

(** [delete_one({"_id": k})]; the answer is [deleted_count]. *)
Definition delete_one_customer (k : oid) : M nat :=
  fun s =>
    match customer s !! k with
    | Some _ =>
        (Ok 1%nat,
         {| customer := delete k (customer s); order := order s;
            next_id := next_id s; clock := clock s |})
    | None => (Ok 0%nat, s)
    end.

Definition delete_one_order (k : oid) : M nat :=
  fun s =>
    match order s !! k with
    | Some _ =>
        (Ok 1%nat,
         {| customer := customer s; order := delete k (order s);
            next_id := next_id s; clock := clock s |})
    | None => (Ok 0%nat, s)
    end.

End Db.

Import Db.

(* ===================================================================== *)
(** * main.py: the request handlers *)
(* ===================================================================== *)

Module Api.

(** ** Request models *)

Record OrderCreate := {
  oc_customer_id : string;
  oc_status : option string;
  oc_order_discount_percent : float;
  oc_items : list OrderItem;
}.

Record OrderUpdate := {
  ou_status : option string;
  ou_order_discount_percent : option float;
  ou_items : option (list OrderItem);
}.

(** What validation of a request body guarantees before a handler runs:
    every item meets the constraints of [OrderItem].  Neither model
    constrains [order_discount_percent]. *)
Definition OrderCreate_valid (p : OrderCreate) : bool :=
  forallb OrderItem_valid (oc_items p).

Definition OrderUpdate_valid (p : OrderUpdate) : bool :=
  match ou_items p with
  | Some l => forallb OrderItem_valid l
  | None => true
  end.

(** ** Responses

    A document goes out through [to_str_id], which replaces its [_id] by
    [str(_id)] and passes [None] through.  An order read by [get_order]
    also carries the key ["customer_name"], whose value is the name or
    [None]. *)
Inductive response : Type :=
| Customer_json (doc : option (string * CustomerDoc))
| Order_json (doc : option (string * OrderDoc)) (customer_name : option (option string))
| Deleted_json.

Definition to_str_id_customer (doc : option CustomerDoc) : option (string * CustomerDoc) :=
  (fun d => (str (cd_id d), d)) <$> doc.

Definition to_str_id_order (doc : option OrderDoc) : option (string * OrderDoc) :=
  (fun d => (str (o_id d), d)) <$> doc.

(** Truth value of a string: false exactly for the empty one. *)
Definition truthy (s : string) : bool :=
  match s with
  | EmptyString => false
  | _ => true
  end.

(** ** Customers *)

Definition create_customer (customer : Customer) : M response :=
  existing ← find_one_customer_by_email (c_email customer);
  match existing with
  | Some _ => raise (HTTPException 400 "Email already exists")
  | None =>
      new_id ← create_document_customer customer;
      k ← lift (ObjectId new_id);
      saved ← find_one_customer k;
      mret (Customer_json (to_str_id_customer saved))
  end.

Definition get_customer (customer_id : string) : M response :=
  k ← lift (ObjectId customer_id);
  doc ← find_one_customer k;
  match doc with
  | None => raise (HTTPException 404 "Customer not found")
  | Some d => mret (Customer_json (to_str_id_customer (Some d)))
  end.

Definition update_customer (customer_id : string) (customer : Customer) : M response :=
  k ← lift (ObjectId customer_id);
  matched_count ← update_one_customer k customer;
  match matched_count with
  | O => raise (HTTPException 404 "Customer not found")
  | _ =>
      k' ← lift (ObjectId customer_id);
      doc ← find_one_customer k';
      mret (Customer_json (to_str_id_customer doc))
  end.

Definition delete_customer (customer_id : string) : M response :=
  k ← lift (ObjectId customer_id);
  deleted_count ← delete_one_customer k;
  match deleted_count with
  | O => raise (HTTPException 404 "Customer not found")
  | _ => mret Deleted_json
  end.

(** ** Orders *)

(** [payload.status or "Pending"] *)
Definition status_or_pending (st : option string) : string :=
  match st with
  | Some s => if truthy s then s else "Pending"
  | None => "Pending"
  end.

Definition create_order (payload : OrderCreate) : M response :=
  k ← lift (ObjectId (oc_customer_id payload));
  cust ← find_one_customer k;
  match cust with
  | None => raise (HTTPException 400 "Invalid customer_id")
  | Some _ =>
      totals ← lift (compute_totals (oc_items payload) (oc_order_discount_percent payload));
      let order_doc :=
        {| customer_id := oc_customer_id payload;
           status := status_or_pending (oc_status payload);
           order_discount_percent := oc_order_discount_percent payload;
           items := oc_items payload;
           subtotal := t_subtotal totals;
           discount_total := t_discount_total totals;
           total := t_total totals |} in
      new_id ← create_document_order order_doc;
      k' ← lift (ObjectId new_id);
      saved ← find_one_order k';
      mret (Order_json (to_str_id_order saved) None)
  end.

(** The customer an order document points to, as [get_order] looks it
    up: [find_one(...) if d.get("customer_id") else None]. *)
Definition referenced_customer (d : OrderDoc) : M (option CustomerDoc) :=
  if truthy (customer_id (o_data d)) then
    ck ← lift (ObjectId (customer_id (o_data d)));
    find_one_customer ck
  else mret None.

Definition get_order (order_id : string) : M response :=
  k ← lift (ObjectId order_id);
  d ← find_one_order k;
  match d with
  | None => raise (HTTPException 404 "Order not found")
  | Some d =>
      cust ← referenced_customer d;
      mret (Order_json (to_str_id_order (Some d))
                       (Some ((fun c => c_name (cd_data c)) <$> cust)))
  end.

(** The constructor call [OrderItem] on a stored dictionary, which
    validates it again. *)
Definition OrderItem_of_dict (it : OrderItem) : result OrderItem :=
  if OrderItem_valid it then Ok it else Raise ValidationError.

(** The list comprehension over the stored items. *)
Fixpoint OrderItems_of_dicts (l : list OrderItem) : result (list OrderItem) :=
  match l with
  | [] => Ok []
  | it :: rest =>
      i ← OrderItem_of_dict it;
      r ← OrderItems_of_dicts rest;
      Ok (i :: r)
  end.

(** The dictionary [update_fields]: a key is [Some] when it is set. *)
Record UpdateFields := {
  uf_status : option string;
  uf_items : option (list OrderItem);
  uf_order_discount_percent : option float;
  uf_totals : option Totals;
}.

(** [not update_fields] *)
Definition update_fields_empty (u : UpdateFields) : bool :=
  match uf_status u, uf_items u, uf_order_discount_percent u, uf_totals u with
  | None, None, None, None => true
  | _, _, _, _ => false
  end.

(** The condition of line 173:
    [(payload.items is not None) or (payload.order_discount_percent is not None)]. *)
Definition recompute (payload : OrderUpdate) : bool :=
  match ou_items payload, ou_order_discount_percent payload with
  | None, None => false
  | _, _ => true
  end.

(** The arguments of the call of [compute_totals] in [update_order].
    The stored values are read with [d.get(key, default)]; every order
    document has both keys, [create_order] being the only writer of new
    ones, so the defaults are never taken. *)
Definition pricing_items (payload : OrderUpdate) (d : OrderDoc) : result (list OrderItem) :=
  match ou_items payload with
  | Some l => Ok l
  | None => OrderItems_of_dicts (items (o_data d))
  end.

Definition pricing_discount (payload : OrderUpdate) (d : OrderDoc) : float :=
  match ou_order_discount_percent payload with
  | Some x => x
  | None => order_discount_percent (o_data d)
  end.

(** Lines 165 to 178: the fields an update sets. *)
Definition build_update_fields (payload : OrderUpdate) (d : OrderDoc) : result UpdateFields :=
  totals ← (if recompute payload then
              its ← pricing_items payload d;
              t ← compute_totals its (pricing_discount payload d);
              Ok (Some t)
            else Ok None);
  Ok {| uf_status := ou_status payload;
        uf_items := ou_items payload;
        uf_order_discount_percent := ou_order_discount_percent payload;
        uf_totals := totals |}.

(** [{"$set": update_fields}] on the data of an order. *)
Definition apply_set (u : UpdateFields) (d : OrderData) : OrderData :=
  {| customer_id := customer_id d;
     status := default (status d) (uf_status u);
     order_discount_percent := default (order_discount_percent d) (uf_order_discount_percent u);
     items := default (items d) (uf_items u);
     subtotal := default (subtotal d) (t_subtotal <$> uf_totals u);
     discount_total := default (discount_total d) (t_discount_total <$> uf_totals u);
     total := default (total d) (t_total <$> uf_totals u) |}.

Definition update_order (order_id : string) (payload : OrderUpdate) : M response :=
  k ← lift (ObjectId order_id);
  d ← find_one_order k;
  match d with
  | None => raise (HTTPException 404 "Order not found")
  | Some d =>
      update_fields ← lift (build_update_fields payload d);
      if update_fields_empty update_fields then
        mret (Order_json (to_str_id_order (Some d)) None)
      else
        _ ← update_one_order k (apply_set update_fields);
        k' ← lift (ObjectId order_id);
        saved ← find_one_order k';
        mret (Order_json (to_str_id_order saved) None)
  end.

Definition delete_order (order_id : string) : M response :=
  k ← lift (ObjectId order_id);
  deleted_count ← delete_one_order k;
  match deleted_count with
  | O => raise (HTTPException 404 "Order not found")
  | _ => mret Deleted_json
  end.

(** ** The routes

    A request names an endpoint and carries its parsed arguments.  A
    body that fails validation never reaches the handler: the
    framework answers 422. *)
Inductive request : Type :=
| POST_customers (customer : Customer)
| GET_customer (customer_id : string)
| PUT_customer (customer_id : string) (customer : Customer)
| DELETE_customer (customer_id : string)
| POST_orders (payload : OrderCreate)
| GET_order (order_id : string)
| PUT_order (order_id : string) (payload : OrderUpdate)
| DELETE_order (order_id : string).

Definition unprocessable : exn := HTTPException 422 "Unprocessable Entity".

Definition handle (r : request) : M response :=
  match r with
  | POST_customers c => create_customer c
  | GET_customer i => get_customer i
  | PUT_customer i c => update_customer i c
  | DELETE_customer i => delete_customer i
  | POST_orders p =>
      if OrderCreate_valid p then create_order p else raise unprocessable
  | GET_order i => get_order i
  | PUT_order i p =>
      if OrderUpdate_valid p then update_order i p else raise unprocessable
  | DELETE_order i => delete_order i
  end.

(** The store after a request, and after a sequence of them. *)
Definition after (r : request) (s : Store) : Store := snd (handle r s).

Definition run (rs : list request) (s : Store) : Store :=
  fold_left (fun s r => after r s) rs s.

(** The states the service can be observed in. *)
Inductive reachable : Store -> Prop :=
| reachable_empty : reachable empty_db
| reachable_after s r : reachable s -> reachable (after r s).

(** ** The parsing boundary of [PUT /orders/{order_id}]

    The body of the request arrives as a JSON object, a dictionary from
    keys to JSON values, and is validated against [OrderUpdate].  The
    class declares three fields, each optional with default [None], and
    keeps the default treatment of keys it does not declare: they are
    dropped.  How a JSON value is coerced to the type of a field is the
    validation library's business and is taken as given. *)
Section Boundary.

Variable json : Type.
Variable optional_str : json -> result (option string).
Variable optional_float : json -> result (option float).
Variable optional_items : json -> result (option (list OrderItem)).

(** A declared field: its default when the key is absent. *)
Definition field {A} (coerce : json -> result (option A)) (v : option json)
  : result (option A) :=
  match v with
  | None => Ok None
  | Some j => coerce j
  end.

Definition OrderUpdate_validate (body : gmap string json) : result OrderUpdate :=
  st ← field optional_str (body !! "status");
  d ← field optional_float (body !! "order_discount_percent");
  its ← field optional_items (body !! "items");
  Ok {| ou_status := st; ou_order_discount_percent := d; ou_items := its |}.

(** The route: validate the body, then call the handler. *)
Definition put_order (order_id : string) (body : gmap string json) : M response :=
  match OrderUpdate_validate body with
  | Ok payload => update_order order_id payload
  | Raise _ => raise unprocessable
  end.

End Boundary.

End Api.

Import Api.


(* ===================================================================== *)
(** * Notions the statements use *)
(* ===================================================================== *)

(** The totals an empty order has. *)
Definition zero_totals : Totals :=
  {| t_subtotal := zero; t_discount_total := zero; t_total := zero |}.

(** The totals of an empty order under a discount that is an infinity
    or no number: nothing times such a rate is NaN. *)
Definition nan_totals : Totals :=
  {| t_subtotal := zero; t_discount_total := S754_nan; t_total := S754_nan |}.

(** The three derived fields of an order, as a [Totals]. *)
Definition totals_of (d : OrderData) : Totals :=
  {| t_subtotal := subtotal d; t_discount_total := discount_total d; t_total := total d |}.

(** The derived fields of [d] are what the pricing engine gives for the
    items and the discount of [d]. *)
Definition priced (d : OrderData) : Prop :=
  compute_totals (items d) (order_discount_percent d) = Ok (totals_of d).

(** The equation between the persisted derived fields, as Python's [==]
    on floats decides it: once plain, once with the difference rounded. *)
Definition total_is_difference (d : OrderData) : bool :=
  feq (total d) (fsub (subtotal d) (discount_total d)).

Definition total_is_rounded_difference (d : OrderData) : bool :=
  feq (total d) (round2 (fsub (subtotal d) (discount_total d))).

(** What is stored is well formed and consistent. *)
Definition good_order (o : OrderDoc) : Prop :=
  priced (o_data o) /\ forallb OrderItem_valid (items (o_data o)) = true.

Definition set_orders (s : Store) (m : gmap N OrderDoc) : Store :=
  {| customer := customer s; order := m; next_id := next_id s; clock := clock s |}.

Definition set_customers (s : Store) (m : gmap N CustomerDoc) : Store :=
  {| customer := m; order := order s; next_id := next_id s; clock := clock s |}.

(** The document [d] after [{"$set": u}]. *)
Definition updated (u : UpdateFields) (d : OrderDoc) : OrderDoc :=
  {| o_id := o_id d; o_data := apply_set u (o_data d);
     o_created_at := o_created_at d; o_updated_at := o_updated_at d |}.

(** The document [d] with a new status (if one is given), the items [its],
    the discount [x] and the derived fields [t]; everything else is kept. *)
Definition repriced (st : option string) (its : list OrderItem) (x : float)
    (t : Totals) (d : OrderDoc) : OrderDoc :=
  {| o_id := o_id d;
     o_data := {| customer_id := customer_id (o_data d);
                  status := default (status (o_data d)) st;
                  order_discount_percent := x;
                  items := its;
                  subtotal := t_subtotal t;
                  discount_total := t_discount_total t;
                  total := t_total t |};
     o_created_at := o_created_at d; o_updated_at := o_updated_at d |}.

(** The document [create_order] inserts once the customer is found. *)
Definition new_order (p : OrderCreate) (t : Totals) (s : Store) : OrderDoc :=
  {| o_id := next_id s;
     o_data := {| customer_id := oc_customer_id p;
                  status := status_or_pending (oc_status p);
                  order_discount_percent := oc_order_discount_percent p;
                  items := oc_items p;
                  subtotal := t_subtotal t;
                  discount_total := t_discount_total t;
                  total := t_total t |};
     o_created_at := clock s; o_updated_at := clock s |}.

(* ===================================================================== *)
(** * Sample data *)
(* ===================================================================== *)

Module Sample.

Definition alice : Customer :=
  {| c_name := "Alice"; c_email := "alice@example.com";
     c_phone := None; c_address := None; c_note := None |}.

(** Alice again, her address in capitals. *)
Definition alice_upper : Customer :=
  {| c_name := "Alice"; c_email := "ALICE@EXAMPLE.COM";
     c_phone := None; c_address := None; c_note := None |}.

(** One kettle at 2.50. *)
Definition kettle : OrderItem :=
  {| name := "kettle"; quantity := 1; unit_price := decimal 250 2;
     discount_percent := of_Z 0 |}.

(** The item of the worked example: two at 50.00, 10 percent off. *)
Definition example_item : OrderItem :=
  {| name := "item"; quantity := 2; unit_price := decimal 5000 2;
     discount_percent := of_Z 10 |}.

(** Alice's order of one kettle with 1 percent off the order. *)
Definition kettle_order : OrderCreate :=
  {| oc_customer_id := "000000000000000000000000"; oc_status := None;
     oc_order_discount_percent := of_Z 1; oc_items := [kettle] |}.

(** The store after Alice registered and placed that order: she has
    identifier 0, the order has identifier 1. *)
Definition shop : Store :=
  run [POST_customers alice; POST_orders kettle_order] empty_db.

Definition alice_id : string := "000000000000000000000000".
Definition order_id : string := "000000000000000000000001".

Definition kettle_doc : OrderDoc :=
  {| o_id := 1%N;
     o_data := {| customer_id := alice_id; status := "Pending";
                  order_discount_percent := of_Z 1; items := [kettle];
                  subtotal := decimal 250 2;
                  discount_total := decimal 3 2;
                  total := decimal 248 2 |};
     o_created_at := 1%N; o_updated_at := 1%N |}.

Definition alice_doc : CustomerDoc :=
  {| cd_id := 0%N; cd_data := alice; cd_created_at := 0%N; cd_updated_at := 0%N |}.

(** A store whose only order carries derived fields that do not match
    its items: pricing one kettle does not give 9.99. *)
Definition stale_doc : OrderDoc :=
  {| o_id := 1%N;
     o_data := {| customer_id := alice_id; status := "Pending";
                  order_discount_percent := of_Z 1; items := [kettle];
                  subtotal := decimal 999 2;
                  discount_total := decimal 0 2;
                  total := decimal 999 2 |};
     o_created_at := 1%N; o_updated_at := 1%N |}.

Definition stale_shop : Store :=
  {| customer := {[ 0%N := alice_doc ]}; order := {[ 1%N := stale_doc ]};
     next_id := 2%N; clock := 2%N |}.

Definition status_only (st : string) : OrderUpdate :=
  {| ou_status := Some st; ou_order_discount_percent := None; ou_items := None |}.

(** A small JSON, enough for bodies of [PUT /orders/{order_id}], with
    coercions that accept a value of the field's own type or [null]. *)
Inductive json : Type :=
| JNull
| JNumber (x : float)
| JString (s : string)
| JItems (l : list OrderItem).

Definition optional_str (j : json) : result (option string) :=
  match j with
  | JNull => Ok None
  | JString s => Ok (Some s)
  | _ => Raise ValidationError
  end.

Definition optional_float (j : json) : result (option float) :=
  match j with
  | JNull => Ok None
  | JNumber x => Ok (Some x)
  | _ => Raise ValidationError
  end.

Definition optional_items (j : json) : result (option (list OrderItem)) :=
  match j with
  | JNull => Ok None
  | JItems l => if forallb OrderItem_valid l then Ok (Some l) else Raise ValidationError
  | _ => Raise ValidationError
  end.

Definition paid_body : gmap string json := {[ "status" := JString "Paid" ]}.

End Sample.

(* ===================================================================== *)
(** * main.py: the listing of orders *)
(* ===================================================================== *)

Module Listing.

(** The query [q] of [list_orders]: a parameter that is truthy adds an
    equality filter on its field; [None] and the empty string add none. *)
Definition in_query (status customer_id : option string) (d : OrderDoc) : bool :=
  match status with
  | Some st => if truthy st then bool_decide (Db.status (o_data d) = st) else true
  | None => true
  end
  &&
  match customer_id with
  | Some ci => if truthy ci then bool_decide (Db.customer_id (o_data d) = ci) else true
  | None => true
  end.

(** The order [sort("created_at", -1)] asks for: newest first. *)
Definition newer_first (a b : OrderDoc) : Prop := (o_created_at b <= o_created_at a)%N.

#[global] Instance newer_first_dec : RelDecision newer_first :=
  fun a b => decide (o_created_at b <= o_created_at a)%N.

(** [list(db["order"].find(q).sort("created_at", -1))].  Documents with
    the same timestamp come in an order the database does not promise;
    here it is the one the merge sort leaves. *)
Definition find_orders (status customer_id : option string) : M (list OrderDoc) :=
  fun s =>
    (Ok (merge_sort newer_first
           (filter (fun d => in_query status customer_id d = true)
                   (snd <$> map_to_list (order s)))),
     s).

(** The body of the loop: look the customer up, attach the name, and
    pass the document through [to_str_id]. *)
Definition with_customer_name (d : OrderDoc) : M (string * OrderDoc * option string) :=
  cust ← referenced_customer d;
  mret (str (o_id d), d, (fun c => c_name (cd_data c)) <$> cust).

(** The loop [for d in docs]: an exception ends it. *)
Fixpoint for_each {A B} (f : A -> M B) (l : list A) : M (list B) :=
  match l with
  | [] => mret []
  | x :: rest =>
      y ← f x;
      ys ← for_each f rest;
      mret (y :: ys)
  end.

Definition list_orders (status customer_id : option string)
  : M (list (string * OrderDoc * option string)) :=
  docs ← find_orders status customer_id;
  for_each with_customer_name docs.

End Listing.

Import Listing.

(* ===================================================================== *)
(** * What one request can do to the store *)
(* ===================================================================== *)

(** The writes a handler performs: none, one insertion under the next
    identifier, one replacement of the data of a stored document, or one
    deletion. *)
Inductive effect (s : Store) : Store -> Prop :=
| effect_none : effect s s
| effect_insert_customer (c : Customer) :
    effect s (snd (create_document_customer c s))
| effect_insert_order (p : OrderCreate) (t : Totals) (k : N) (c : CustomerDoc) :
    ObjectId (oc_customer_id p) = Ok k ->
    customer s !! k = Some c ->
    compute_totals (oc_items p) (oc_order_discount_percent p) = Ok t ->
    effect s {| customer := customer s;
                order := <[next_id s := new_order p t s]> (order s);
                next_id := N.succ (next_id s);
                clock := N.succ (clock s) |}
| effect_update_customer (k : N) (d : CustomerDoc) (c : Customer) :
    customer s !! k = Some d ->
    effect s (snd (update_one_customer k c s))
| effect_update_order (k : N) (d : OrderDoc) (u : UpdateFields) :
    order s !! k = Some d ->
    effect s (set_orders s (<[k := updated u d]> (order s)))
| effect_delete_customer (k : N) :
    effect s (set_customers s (delete k (customer s)))
| effect_delete_order (k : N) :
    effect s (set_orders s (delete k (order s))).

(** Identifiers are handed out in increasing order: every stored document
    sits under an identifier below the next one and carries it as [_id]. *)
Definition ids_in_order (s : Store) : Prop :=
  (forall k d, customer s !! k = Some d -> (k < next_id s)%N /\ cd_id d = k) /\
  (forall k d, order s !! k = Some d -> (k < next_id s)%N /\ o_id d = k).

(** Every stored order names its customer by a well-formed identifier. *)
Definition references_well_formed (s : Store) : Prop :=
  forall k d, order s !! k = Some d -> exists ck, ObjectId (customer_id (o_data d)) = Ok ck.

(** A customer document as [create_document] stores it in [s]. *)
Definition new_customer (c : Customer) (s : Store) : CustomerDoc :=
  {| cd_id := next_id s; cd_data := c;
     cd_created_at := clock s; cd_updated_at := clock s |}.

(** The store after an insertion into either collection. *)
Definition inserted_customer (c : Customer) (s : Store) : Store :=
  {| customer := <[next_id s := new_customer c s]> (customer s);
     order := order s;
     next_id := N.succ (next_id s);
     clock := N.succ (clock s) |}.

Definition inserted_order (p : OrderCreate) (t : Totals) (s : Store) : Store :=
  {| customer := customer s;
     order := <[next_id s := new_order p t s]> (order s);
     next_id := N.succ (next_id s);
     clock := N.succ (clock s) |}.

(** A customer document with its data replaced. *)
Definition replaced (c : Customer) (d : CustomerDoc) : CustomerDoc :=
  {| cd_id := cd_id d; cd_data := c;
     cd_created_at := cd_created_at d; cd_updated_at := cd_updated_at d |}.

(** No stored customer has the email [e]. *)
Definition email_free (e : string) (s : Store) : Prop :=
  forall k d, customer s !! k = Some d -> c_email (cd_data d) <> e.

(** An order as a listing shows it in [s]: its identifier as a string, the
    document, and the name of its customer if [s] has that customer. *)
Definition listed (s : Store) (d : OrderDoc) : string * OrderDoc * option string :=
  (str (o_id d), d,
   match ObjectId (customer_id (o_data d)) with
   | Ok ck => (fun c => c_name (cd_data c)) <$> customer s !! ck
   | Raise _ => None
   end).

(** The stored orders, in no particular order. *)
Definition stored_orders (s : Store) : list OrderDoc := snd <$> map_to_list (order s).

(** Two items with the same quantity and unit price. *)
Definition same_line (a b : OrderItem) : Prop :=
  quantity a = quantity b /\ unit_price a = unit_price b.

(** The quantity converts to a float. *)
Definition converts (it : OrderItem) : Prop := float_of_int (quantity it) <> None.

(* ===================================================================== *)
(** * More sample data *)
(* ===================================================================== *)

Module Fixtures.

(** The item of the worked example without its discount. *)
Definition example_item_plain : OrderItem :=
  {| name := "item"; quantity := 2; unit_price := decimal 5000 2;
     discount_percent := zero |}.

(** An item whose quantity no float can hold. *)
Definition huge_item : OrderItem :=
  {| name := "grain of sand"; quantity := 2 ^ 1024; unit_price := of_Z 1;
     discount_percent := zero |}.

Definition bob : Customer :=
  {| c_name := "Bob"; c_email := "bob@example.com";
     c_phone := Some "555-0100"; c_address := None; c_note := None |}.

(** Bob with Alice's address. *)
Definition bob_as_alice : Customer :=
  {| c_name := "Bob"; c_email := "alice@example.com";
     c_phone := Some "555-0100"; c_address := None; c_note := None |}.

(** The shop of [Sample] after Bob registered too: he has identifier 2. *)
Definition shop2 : Store := after (POST_customers bob) Sample.shop.

Definition bob_id : string := "000000000000000000000002".

Definition bob_doc : CustomerDoc :=
  {| cd_id := 2%N; cd_data := bob; cd_created_at := 2%N; cd_updated_at := 2%N |}.

(** Two kettles for Alice, marked as paid. *)
Definition second_order : OrderCreate :=
  {| oc_customer_id := Sample.alice_id; oc_status := Some "Paid";
     oc_order_discount_percent := zero;
     oc_items := [Sample.kettle; Sample.kettle] |}.

(** What pricing two kettles without discount gives. *)
Definition second_totals : Totals :=
  {| t_subtotal := decimal 500 2; t_discount_total := zero; t_total := decimal 500 2 |}.

(** An order for Alice that passes validation and cannot be priced. *)
Definition huge_order : OrderCreate :=
  {| oc_customer_id := Sample.alice_id; oc_status := None;
     oc_order_discount_percent := zero; oc_items := [huge_item] |}.

(** A discount-only update. *)
Definition five_percent : OrderUpdate :=
  {| ou_status := None; ou_order_discount_percent := Some (of_Z 5); ou_items := None |}.

Definition ten_percent : OrderUpdate :=
  {| ou_status := None; ou_order_discount_percent := Some (of_Z 10); ou_items := None |}.

(** What pricing one kettle with 10 percent off the order gives. *)
Definition ten_percent_totals : Totals :=
  {| t_subtotal := decimal 250 2; t_discount_total := decimal 25 2;
     t_total := decimal 225 2 |}.

(** One kettle for Alice with [Infinity] as order discount, which JSON
    as Python reads it and the model [OrderCreate] both let through. *)
Definition unbounded_order : OrderCreate :=
  {| oc_customer_id := Sample.alice_id; oc_status := None;
     oc_order_discount_percent := S754_infinity false;
     oc_items := [Sample.kettle] |}.

(** The store after Alice registered and placed that order. *)
Definition unbounded_shop : Store :=
  run [POST_customers Sample.alice; POST_orders unbounded_order] empty_db.

(** An update that supplies the empty list of items and nothing else. *)
Definition no_items : OrderUpdate :=
  {| ou_status := None; ou_order_discount_percent := None; ou_items := Some [] |}.

(** An update that supplies the empty list of items and NaN as discount. *)
Definition no_items_nan : OrderUpdate :=
  {| ou_status := None; ou_order_discount_percent := Some S754_nan; ou_items := Some [] |}.

End Fixtures.

Arguments str : simpl never.
Arguments ObjectId : simpl never.
Arguments compute_totals : simpl never.
Arguments hundred : simpl never.
Arguments fdiv : simpl never.
Arguments fmul : simpl never.
Arguments fadd : simpl never.
Arguments fsub : simpl never.
Arguments round2 : simpl never.

(* ===================================================================== *)
(** * Facts about binary64 arithmetic *)
(* ===================================================================== *)

Section Digits.

(** The number of binary digits brackets a positive number between two
    powers of two. *)
Lemma digits2_pos_bounds (p : positive) :
  2 ^ (Zpos (digits2_pos p) - 1) <= Zpos p < 2 ^ Zpos (digits2_pos p).
Proof.
  induction p as [p IH | p IH |]; simpl digits2_pos.
  - rewrite Pos2Z.inj_succ, (Pos2Z.inj_xI p).
    replace (Z.succ (Zpos (digits2_pos p)) - 1) with (Z.succ (Zpos (digits2_pos p) - 1)) by lia.
    rewrite !Z.pow_succ_r by lia. lia.
  - rewrite Pos2Z.inj_succ, (Pos2Z.inj_xO p).
    replace (Z.succ (Zpos (digits2_pos p)) - 1) with (Z.succ (Zpos (digits2_pos p) - 1)) by lia.
    rewrite !Z.pow_succ_r by lia. lia.
  - cbn. lia.
Qed.

Lemma Zdigits2_nonneg (m : Z) : 0 <= Zdigits2 m.
Proof. destruct m; simpl; lia. Qed.

Lemma Zdigits2_le (m k : Z) : 0 <= m -> 0 <= k -> m < 2 ^ k -> Zdigits2 m <= k.
Proof.
  intros Hm Hk Hlt. destruct m as [| p | p]; simpl; [lia | | lia].
  destruct (digits2_pos_bounds p) as [Hlo _].
  destruct (Z_le_gt_dec (Zpos (digits2_pos p)) k) as [|Hgt]; [assumption|].
  exfalso.
  assert (2 ^ k <= 2 ^ (Zpos (digits2_pos p) - 1)) by (apply Z.pow_le_mono_r; lia).
  lia.
Qed.

Lemma Zdigits2_lt_pow (m : Z) : 0 <= m -> m < 2 ^ Zdigits2 m.
Proof.
  intros Hm. destruct m as [| p | p]; simpl; [lia | | lia].
  apply digits2_pos_bounds.
Qed.

End Digits.

Section Rounding.

Lemma shr_1_m (mrs : shr_record) :
  0 <= shr_m mrs -> shr_m (shr_1 mrs) = shr_m mrs / 2.
Proof.
  destruct mrs as [m r s]; simpl. intros Hm.
  destruct m as [| q | q]; [reflexivity | | lia].
  destruct q as [q | q |]; simpl; [| | reflexivity].
  - rewrite (Pos2Z.inj_xI q). apply Z.div_unique with 1; lia.
  - rewrite (Pos2Z.inj_xO q). apply Z.div_unique with 0; lia.
Qed.

Lemma iter_pos_shr_m (p : positive) :
  forall mrs, 0 <= shr_m mrs ->
    shr_m (SpecFloat.iter_pos shr_1 p mrs) = shr_m mrs / 2 ^ Zpos p.
Proof.
  induction p as [p IH | p IH |]; intros mrs Hm; simpl SpecFloat.iter_pos.
  - assert (H1 : 0 <= shr_m (shr_1 mrs))
      by (rewrite shr_1_m by assumption; apply Z.div_pos; lia).
    assert (H2 : 0 <= shr_m (SpecFloat.iter_pos shr_1 p (shr_1 mrs)))
      by (rewrite IH by assumption; apply Z.div_pos; lia).
    rewrite (IH _ H2), (IH _ H1), shr_1_m by assumption.
    rewrite (Pos2Z.inj_xI p).
    replace (2 * Zpos p + 1) with (1 + Zpos p + Zpos p) by lia.
    rewrite !Z.pow_add_r by lia. rewrite !Z.div_div by lia.
    rewrite Z.pow_1_r. f_equal. lia.
  - assert (H2 : 0 <= shr_m (SpecFloat.iter_pos shr_1 p mrs))
      by (rewrite IH by assumption; apply Z.div_pos; lia).
    rewrite (IH _ H2), (IH _ Hm).
    rewrite (Pos2Z.inj_xO p).
    replace (2 * Zpos p) with (Zpos p + Zpos p) by lia.
    rewrite !Z.pow_add_r by lia. rewrite !Z.div_div by lia. reflexivity.
  - rewrite shr_1_m by assumption. reflexivity.
Qed.


Lemma shr_record_of_loc_m (m : Z) (l : location) : shr_m (shr_record_of_loc m l) = m.
Proof. destruct l as [| []]; reflexivity. Qed.

(** One renormalisation step: the exponent moves up to the canonical
    one and the mantissa is shifted accordingly. *)
Lemma shr_fexp_spec (mx ex : Z) (lx : location) :
  0 <= mx ->
  let e := Z.max ex (fexp prec emax (Zdigits2 mx + ex)) in
  snd (shr_fexp prec emax mx ex lx) = e /\
  shr_m (fst (shr_fexp prec emax mx ex lx)) = mx / 2 ^ (e - ex).
Proof.
  intros Hm e. unfold shr_fexp, shr. subst e.
  destruct (fexp prec emax (Zdigits2 mx + ex) - ex) as [| p | p] eqn:Hn; simpl.
  - rewrite shr_record_of_loc_m.
    replace (Z.max ex (fexp prec emax (Zdigits2 mx + ex)) - ex) with 0 by lia.
    rewrite Z.pow_0_r, Z.div_1_r. split; [lia | reflexivity].
  - rewrite iter_pos_shr_m by (rewrite shr_record_of_loc_m; assumption).
    rewrite shr_record_of_loc_m.
    replace (Z.max ex (fexp prec emax (Zdigits2 mx + ex)) - ex) with (Zpos p) by lia.
    split; [lia | reflexivity].
  - rewrite shr_record_of_loc_m.
    replace (Z.max ex (fexp prec emax (Zdigits2 mx + ex)) - ex) with 0 by lia.
    rewrite Z.pow_0_r, Z.div_1_r. split; [lia | reflexivity].
Qed.

Lemma round_nearest_even_bounds (m : Z) (l : location) :
  m <= round_nearest_even m l <= m + 1.
Proof. destruct l as [| []]; simpl; try lia. destruct (Z.even m); lia. Qed.

Lemma fexp_le (e : Z) : e <= 1024 -> fexp prec emax e <= 971.
Proof. unfold fexp, SpecFloat.emin, prec, emax. lia. Qed.

(** Rounding a value below [2^1023] never overflows. *)
Lemma binary_round_aux_is_finite (sx : bool) (mx ex : Z) (lx : location) :
  0 <= mx -> ex <= 971 -> mx < 2 ^ (1023 - ex) ->
  is_finite (binary_round_aux prec emax sx mx ex lx) = true.
Proof.
  intros Hm Hex Hlt. unfold binary_round_aux.
  destruct (shr_fexp_spec mx ex lx Hm) as [He1 Hm1].
  destruct (shr_fexp prec emax mx ex lx) as [mrs1 e1]; simpl in He1, Hm1.
  rewrite <- He1 in Hm1.
  assert (Hdg : Zdigits2 mx + ex <= 1023)
    by (pose proof (Zdigits2_le mx (1023 - ex)); lia).
  assert (He1le : e1 <= 971)
    by (pose proof (fexp_le (Zdigits2 mx + ex)); lia).
  assert (He1ge : ex <= e1) by lia.
  assert (Hm1lt : 0 <= shr_m mrs1 < 2 ^ (1023 - e1)).
  { rewrite Hm1. split.
    - apply Z.div_pos; [assumption | apply Z.pow_pos_nonneg; lia].
    - apply Z.div_lt_upper_bound; [apply Z.pow_pos_nonneg; lia |].
      rewrite <- Z.pow_add_r by lia.
      replace (e1 - ex + (1023 - e1)) with (1023 - ex) by lia. assumption. }
  pose proof (round_nearest_even_bounds (shr_m mrs1) (loc_of_shr_record mrs1)) as Hr.
  set (m2 := round_nearest_even (shr_m mrs1) (loc_of_shr_record mrs1)) in *.
  assert (Hm2 : 0 <= m2) by lia.
  destruct (shr_fexp_spec m2 e1 loc_Exact Hm2) as [He2 Hq2].
  destruct (shr_fexp prec emax m2 e1 loc_Exact) as [mrs2 e2]; simpl in He2, Hq2.
  rewrite <- He2 in Hq2.
  assert (Hm2lt : m2 < 2 ^ (1024 - e1)).
  { replace (1024 - e1) with (Z.succ (1023 - e1)) by lia.
    rewrite Z.pow_succ_r by lia. lia. }
  assert (He2le : e2 <= 971).
  { pose proof (Zdigits2_le m2 (1024 - e1)).
    pose proof (fexp_le (Zdigits2 m2 + e1)). lia. }
  assert (Hnn : 0 <= shr_m mrs2)
    by (rewrite Hq2; apply Z.div_pos; [lia | apply Z.pow_pos_nonneg; lia]).
  destruct (shr_m mrs2) as [| q | q]; [reflexivity | | lia].
  replace (e2 <=? emax - prec) with true; [reflexivity |].
  symmetry. apply Z.leb_le. unfold emax, prec. lia.
Qed.


Lemma hundred_eq : hundred = S754_finite false 7036874417766400 (-46).
Proof. reflexivity. Qed.

Lemma bounded_mantissa (m : positive) (e : Z) :
  bounded prec emax m e = true -> Zpos m < 2 ^ 53 /\ e <= 971.
Proof.
  unfold bounded, canonical_mantissa. intros H.
  apply andb_true_iff in H as [Hc He].
  apply Z.eqb_eq in Hc. apply Z.leb_le in He.
  unfold fexp, SpecFloat.emin, prec, emax in *.
  split; [| lia].
  destruct (digits2_pos_bounds m) as [_ Hhi].
  assert (2 ^ Zpos (digits2_pos m) <= 2 ^ 53) by (apply Z.pow_le_mono_r; lia).
  lia.
Qed.

(** Dividing a binary64 number by a hundred stays in range. *)
Lemma fdiv_hundred_is_finite (d : float) :
  is_binary64 d = true -> is_finite d = true -> is_finite (fdiv d hundred) = true.
Proof.
  intros Hv Hf. rewrite hundred_eq.
  destruct d as [s | s | | s m e]; try discriminate; [reflexivity |].
  apply bounded_mantissa in Hv as [Hm He].
  unfold fdiv, SFdiv, SFdiv_core_binary.
  change (Zdigits2 7036874417766400) with 53.
  set (e' := Z.min _ _).
  assert (He' : e' <= e + 46 /\ e' <= 964).
  { subst e'. split; [lia |].
    assert (Zdigits2 (Zpos m) <= 53)
      by (apply Zdigits2_le; lia).
    unfold fexp, SpecFloat.emin, prec, emax. lia. }
  set (sh := e - -46 - e').
  assert (Hsh : 0 <= sh) by (subst sh; lia).
  set (m' := match sh with Zpos _ => Z.shiftl (Zpos m) sh | Z0 => Zpos m | Zneg _ => 0 end).
  assert (Hm' : m' = Zpos m * 2 ^ sh).
  { subst m'. destruct sh as [| p | p]; [rewrite Z.pow_0_r; lia | | lia].
    apply Z.shiftl_mul_pow2. lia. }
  pose proof (Z.pow_pos_nonneg 2 sh ltac:(lia) Hsh) as Hpow.
  assert (Hq : 0 <= m' / 7036874417766400 < 2 ^ (1023 - e')).
  { split; [apply Z.div_pos; lia |].
    apply Z.lt_le_trans with (2 ^ (sh + 1)).
    - apply Z.div_lt_upper_bound; [lia |].
      rewrite Z.pow_add_r, Z.pow_1_r by lia.
      change (2 ^ 53) with 9007199254740992 in Hm. nia.
    - apply Z.pow_le_mono_r; [lia |]. subst sh. lia. }
  unfold Z.div in Hq.
  destruct (Z.div_eucl m' 7036874417766400) as [q r].
  apply binary_round_aux_is_finite; lia.
Qed.

End Rounding.

(* ===================================================================== *)
(** * Facts about identifiers *)
(* ===================================================================== *)

Section Identifiers.

Lemma hex_value_digit (d : N) : (d < 16)%N -> hex_value (hex_digit d) = Some d.
Proof.
  intros H.
  assert (E : (d = 0 \/ d = 1 \/ d = 2 \/ d = 3 \/ d = 4 \/ d = 5 \/ d = 6 \/ d = 7 \/
               d = 8 \/ d = 9 \/ d = 10 \/ d = 11 \/ d = 12 \/ d = 13 \/ d = 14 \/ d = 15)%N)
    by lia.
  repeat (destruct E as [-> | E]; [reflexivity |]). subst d. reflexivity.
Qed.

Lemma length_hex_digits (n : nat) :
  forall (k : N) (acc : string),
    String.length (hex_digits n k acc) = (n + String.length acc)%nat.
Proof.
  induction n as [| n IH]; intros k acc; cbn [hex_digits]; [reflexivity |].
  rewrite IH. cbn [String.length]. lia.
Qed.

Lemma is_space_digit (d : N) : (d < 16)%N -> is_space (hex_digit d) = false.
Proof.
  intros H.
  assert (E : (d = 0 \/ d = 1 \/ d = 2 \/ d = 3 \/ d = 4 \/ d = 5 \/ d = 6 \/ d = 7 \/
               d = 8 \/ d = 9 \/ d = 10 \/ d = 11 \/ d = 12 \/ d = 13 \/ d = 14 \/ d = 15)%N)
    by lia.
  repeat (destruct E as [-> | E]; [reflexivity |]). subst d. reflexivity.
Qed.

(** Reading [n] pairs of digits gives the [n] bytes they write. *)
Lemma fromhex_digits (n : nat) :
  forall (k c a : N) (acc : string),
    fromhex (hex_digits (n + n) k acc) c a
    = fromhex acc (c + N.of_nat n) (a * 256 ^ N.of_nat n + k mod 256 ^ N.of_nat n)%N.
Proof.
  induction n as [| n IH]; intros k c a acc.
  - cbn [Nat.add hex_digits N.of_nat].
    rewrite N.pow_0_r, N.mod_1_r, N.mul_1_r, !N.add_0_r. reflexivity.
  - replace (S n + S n)%nat with (S (S (n + n))) by lia. cbn [hex_digits].
    rewrite IH. cbn [fromhex].
    rewrite is_space_digit by (apply N.mod_lt; lia).
    rewrite !hex_value_digit by (apply N.mod_lt; lia).
    f_equal; [lia |].
    rewrite Nat2N.inj_succ, N.pow_succ_r'.
    rewrite N.Div0.div_div. change (16 * 16)%N with 256%N.
    rewrite (N.Div0.mod_mul_r k 256 (256 ^ N.of_nat n)).
    change 256%N with (16 * 16)%N at 7.
    rewrite (N.Div0.mod_mul_r k 16 16). lia.
Qed.

(** Reading back the string of an identifier gives the identifier. *)
Lemma ObjectId_str (k : N) : (k < 2 ^ 96)%N -> ObjectId (str k) = Ok k.
Proof.
  intros Hk. unfold ObjectId, str.
  rewrite length_hex_digits. cbn [String.length Nat.add Nat.eqb].
  change 24%nat with (12 + 12)%nat. rewrite fromhex_digits. cbn [fromhex].
  change (256 ^ N.of_nat 12)%N with (2 ^ 96)%N.
  rewrite N.mod_small by exact Hk. reflexivity.
Qed.

(** What [ObjectId] accepts besides the digits of an identifier is an
    identifier of fewer than twelve bytes, apart from all of those. *)
Lemma oid_of_bytes_short (count value : N) :
  count <> 12%N -> (2 ^ 96 <= oid_of_bytes count value)%N.
Proof.
  intros H. unfold oid_of_bytes.
  destruct (count =? 12)%N eqn:E; [apply N.eqb_eq in E; contradiction | nia].
Qed.

(** Pairs of digits with blanks between them make an identifier; a
    digit alone, or another character, does not. *)
Lemma ObjectId_blanks :
  ObjectId "0000 0000 0000 0000 0000" = Ok (2 ^ 96 * 11)%N /\
  ObjectId "0 0000000000000000000000" = Raise InvalidId /\
  ObjectId "00000000000000000000000g" = Raise InvalidId /\
  ObjectId "00000000000000000000001A" = Ok 26%N.
Proof. repeat split; vm_compute; reflexivity. Qed.

End Identifiers.

(* ===================================================================== *)
(** * Facts about the pricing engine *)
(* ===================================================================== *)

Section PricingFacts.

Lemma is_percent_finite (d : float) : is_percent d = true -> is_finite d = true.
Proof.
  unfold is_percent. intros H. apply andb_true_iff in H as [H0 H100].
  destruct d as [s | [] | | [] m e]; try reflexivity; discriminate.
Qed.

Lemma compute_totals_nil (d : float) :
  is_binary64 d = true -> is_finite d = true ->
  compute_totals [] d = Ok zero_totals.
Proof.
  intros Hv Hf. pose proof (fdiv_hundred_is_finite d Hv Hf) as Hq.
  unfold compute_totals, order_discount, after_item_discounts.
  cbn [accumulate mbind result_bind fst snd].
  destruct (fdiv d hundred) as [[] | | | [] m e]; try discriminate; reflexivity.
Qed.

(** With no items and a discount that is an infinity or no number, the
    subtotal is 0.0 and the two other totals are NaN. *)
Lemma compute_totals_nil_not_finite (d : float) :
  is_finite d = false -> compute_totals [] d = Ok nan_totals.
Proof.
  destruct d as [b | b | | b m e]; try discriminate; intros _.
  - destruct b; vm_compute; reflexivity.
  - vm_compute. reflexivity.
Qed.

End PricingFacts.


(* ===================================================================== *)
(** * What each handler does to the store *)
(* ===================================================================== *)

(** Unfolds the sequencing and the collection operations. *)
Ltac run :=
  unfold mbind, M_bind, mret, M_ret, lift, raise,
    find_one_customer, find_one_order, find_one_customer_by_email,
    create_document_customer, create_document_order,
    update_one_customer, update_one_order,
    delete_one_customer, delete_one_order; cbn beta iota.


Section Handlers.

Lemma OrderItems_of_dicts_valid (l : list OrderItem) :
  forallb OrderItem_valid l = true -> OrderItems_of_dicts l = Ok l.
Proof.
  induction l as [| it l IH]; cbn [forallb OrderItems_of_dicts]; [reflexivity |].
  intros H. apply andb_true_iff in H as [Hit Hl].
  unfold OrderItem_of_dict. rewrite Hit, (IH Hl). reflexivity.
Qed.

Lemma OrderItems_of_dicts_Ok (l l' : list OrderItem) :
  OrderItems_of_dicts l = Ok l' -> l' = l /\ forallb OrderItem_valid l = true.
Proof.
  revert l'. induction l as [| it l IH]; cbn [forallb OrderItems_of_dicts]; intros l' H.
  - inversion H. auto.
  - unfold OrderItem_of_dict in H.
    destruct (OrderItem_valid it); [| discriminate].
    destruct (OrderItems_of_dicts l) as [r |]; [| discriminate].
    inversion H. destruct (IH r eq_refl) as [-> ->]. auto.
Qed.

(** *** Customers: the order collection is not touched *)

Lemma create_customer_order (c : Customer) (s : Store) :
  order (snd (create_customer c s)) = order s.
Proof.
  unfold create_customer. run.
  destruct (list_find _ _); cbn [fmap option_fmap option_map snd]; [reflexivity |].
  destruct (ObjectId (str (next_id s))); reflexivity.
Qed.

Lemma get_customer_store (i : string) (s : Store) : snd (get_customer i s) = s.
Proof.
  unfold get_customer. run.
  destruct (ObjectId i); [| reflexivity].
  destruct (customer s !! a); reflexivity.
Qed.

Lemma update_customer_order (i : string) (c : Customer) (s : Store) :
  order (snd (update_customer i c s)) = order s.
Proof.
  unfold update_customer. run.
  destruct (ObjectId i); [| reflexivity].
  destruct (customer s !! a); reflexivity.
Qed.

Lemma delete_customer_order (i : string) (s : Store) :
  order (snd (delete_customer i s)) = order s.
Proof.
  unfold delete_customer. run.
  destruct (ObjectId i); [| reflexivity].
  destruct (customer s !! a); reflexivity.
Qed.

(** *** Orders *)

Lemma get_order_store (i : string) (s : Store) : snd (get_order i s) = s.
Proof.
  unfold get_order, referenced_customer. run.
  destruct (ObjectId i); [| reflexivity].
  destruct (order s !! a) as [d |]; [| reflexivity].
  destruct (truthy _); [| reflexivity].
  destruct (ObjectId _); reflexivity.
Qed.

Lemma delete_order_order (i : string) (s : Store) :
  order (snd (delete_order i s)) = order s \/
  exists k, order (snd (delete_order i s)) = delete k (order s).
Proof.
  unfold delete_order. run.
  destruct (ObjectId i) as [k |]; [| left; reflexivity].
  destruct (order s !! k); [right; exists k |left]; reflexivity.
Qed.

Lemma create_order_order (p : OrderCreate) (s : Store) :
  order (snd (create_order p s)) = order s \/
  exists t, compute_totals (oc_items p) (oc_order_discount_percent p) = Ok t /\
            order (snd (create_order p s)) = <[next_id s := new_order p t s]> (order s).
Proof.
  unfold create_order. run.
  destruct (ObjectId (oc_customer_id p)) as [k |]; [| left; reflexivity].
  destruct (customer s !! k); [| left; reflexivity].
  destruct (compute_totals _ _) as [t |]; [| left; reflexivity].
  right. exists t. split; [reflexivity |].
  destruct (ObjectId (str (next_id s))); reflexivity.
Qed.

(** A valid order for a known customer is stored under a fresh identifier
    and returned as stored. *)
Lemma create_order_found (p : OrderCreate) (s : Store) (k : N) (c : CustomerDoc) (t : Totals) :
  ObjectId (oc_customer_id p) = Ok k -> customer s !! k = Some c ->
  compute_totals (oc_items p) (oc_order_discount_percent p) = Ok t ->
  (next_id s < 2 ^ 96)%N ->
  create_order p s =
    (Ok (Order_json (Some (str (next_id s), new_order p t s)) None),
     {| customer := customer s;
        order := <[next_id s := new_order p t s]> (order s);
        next_id := N.succ (next_id s);
        clock := N.succ (clock s) |}).
Proof.
  intros Hi Hc Ht Hn. unfold create_order. run. rewrite Hi. cbn beta iota.
  rewrite Hc, Ht. cbn beta iota. rewrite (ObjectId_str _ Hn). cbn beta iota.
  cbn [order]. rewrite lookup_insert_eq. reflexivity.
Qed.

Lemma update_order_found (i : string) (p : OrderUpdate) (s : Store) (k : N) (d : OrderDoc) :
  ObjectId i = Ok k -> order s !! k = Some d ->
  update_order i p s =
    match build_update_fields p d with
    | Ok u =>
        if update_fields_empty u
        then (Ok (Order_json (Some (str (o_id d), d)) None), s)
        else (Ok (Order_json (Some (str (o_id d), updated u d)) None),
              set_orders s (<[k := updated u d]> (order s)))
    | Raise e => (Raise e, s)
    end.
Proof.
  intros Hi Hd. unfold update_order. run. rewrite Hi. cbn beta iota. rewrite Hd.
  destruct (build_update_fields p d) as [u | e]; [| reflexivity].
  destruct (update_fields_empty u); [reflexivity |].
  cbn beta iota. rewrite Hd. cbn beta iota. cbn [order].
  rewrite lookup_insert_eq. reflexivity.
Qed.

Lemma update_order_missing (i : string) (p : OrderUpdate) (s : Store) :
  (forall k, ObjectId i = Ok k -> order s !! k = None) ->
  snd (update_order i p s) = s.
Proof.
  intros H. unfold update_order. run.
  destruct (ObjectId i) as [k |]; [| reflexivity].
  rewrite (H k eq_refl). reflexivity.
Qed.

End Handlers.

(* ===================================================================== *)
(** * What holds in every reachable store *)
(* ===================================================================== *)

Section Invariants.

Lemma totals_eta (t : Totals) :
  {| t_subtotal := t_subtotal t; t_discount_total := t_discount_total t;
     t_total := t_total t |} = t.
Proof. destruct t; reflexivity. Qed.

Lemma good_new_order (p : OrderCreate) (t : Totals) (s : Store) :
  OrderCreate_valid p = true ->
  compute_totals (oc_items p) (oc_order_discount_percent p) = Ok t ->
  good_order (new_order p t s).
Proof.
  intros Hv Ht. split; [| exact Hv].
  unfold priced, totals_of, new_order. cbn [o_data items order_discount_percent
    subtotal discount_total total].
  rewrite Ht, totals_eta. reflexivity.
Qed.

(** The shape of [update_fields]. *)
Lemma build_update_fields_Ok (p : OrderUpdate) (d : OrderDoc) (u : UpdateFields) :
  build_update_fields p d = Ok u ->
  uf_status u = ou_status p /\
  uf_items u = ou_items p /\
  uf_order_discount_percent u = ou_order_discount_percent p /\
  ((recompute p = false /\ uf_totals u = None) \/
   (recompute p = true /\
    exists its t, pricing_items p d = Ok its /\
                  compute_totals its (pricing_discount p d) = Ok t /\
                  uf_totals u = Some t)).
Proof.
  unfold build_update_fields, mbind, result_bind. intros H.
  destruct (recompute p) eqn:Hr.
  - destruct (pricing_items p d) as [its |] eqn:Hits; [| discriminate].
    destruct (compute_totals its (pricing_discount p d)) as [t |] eqn:Ht; [| discriminate].
    inversion H; subst u; cbn.
    repeat split; try reflexivity. right. split; [reflexivity |]. eauto.
  - inversion H; subst u; cbn.
    repeat split; try reflexivity. left. auto.
Qed.

Lemma recompute_false (p : OrderUpdate) :
  recompute p = false <-> ou_items p = None /\ ou_order_discount_percent p = None.
Proof.
  unfold recompute. destruct (ou_items p), (ou_order_discount_percent p);
    cbn; split; try (intros [? ?]); try intros ?; auto; congruence.
Qed.

Lemma good_updated (p : OrderUpdate) (d : OrderDoc) (u : UpdateFields) :
  good_order d -> OrderUpdate_valid p = true ->
  build_update_fields p d = Ok u -> good_order (updated u d).
Proof.
  intros [Hp Hv] Hpv Hb.
  destruct (build_update_fields_Ok p d u Hb) as (Hst & Hit & Hod & Hcase).
  unfold good_order, priced, totals_of, updated, apply_set.
  cbn [o_data items order_discount_percent subtotal discount_total total].
  rewrite Hit, Hod.
  destruct Hcase as [[Hr Ht] | [Hr (its & t & Hits & Hct & Ht)]]; rewrite Ht.
  - apply recompute_false in Hr as [Hi Hx]. rewrite Hi, Hx. cbn. auto.
  - unfold pricing_items, pricing_discount, OrderUpdate_valid in *.
    cbn [fmap option_fmap option_map default from_option id].
    rewrite totals_eta.
    destruct (ou_items p) as [l |].
    + inversion Hits; subst its. cbn [default from_option id]. split; [| exact Hpv].
      destruct (ou_order_discount_percent p); exact Hct.
    + apply OrderItems_of_dicts_Ok in Hits as [-> _]. cbn [default from_option id].
      split; [| exact Hv].
      destruct (ou_order_discount_percent p); exact Hct.
Qed.

(** Every order a reachable store holds is consistent. *)
Lemma reachable_good (s : Store) :
  reachable s -> map_Forall (fun _ o => good_order o) (order s).
Proof.
  induction 1 as [| s r Hs IH].
  - cbn. apply map_Forall_empty.
  - unfold after. destruct r as [c | i | i c | i | p | i | i p | i]; cbn [handle].
    + rewrite create_customer_order. exact IH.
    + rewrite get_customer_store. exact IH.
    + rewrite update_customer_order. exact IH.
    + rewrite delete_customer_order. exact IH.
    + destruct (OrderCreate_valid p) eqn:Hv; [| exact IH].
      destruct (create_order_order p s) as [-> | (t & Ht & ->)]; [exact IH |].
      apply map_Forall_insert_2; [| exact IH].
      apply good_new_order; assumption.
    + rewrite get_order_store. exact IH.
    + destruct (OrderUpdate_valid p) eqn:Hv; [| exact IH].
      destruct (ObjectId i) as [k |] eqn:Hi.
      * destruct (order s !! k) as [d |] eqn:Hd.
        -- rewrite (update_order_found i p s k d Hi Hd).
           destruct (build_update_fields p d) as [u |] eqn:Hb; [| exact IH].
           destruct (update_fields_empty u); [exact IH |].
           cbn [snd set_orders order].
           apply map_Forall_insert_2; [| exact IH].
           apply (good_updated p d u); auto.
           exact (IH k d Hd).
        -- rewrite update_order_missing; [exact IH |].
           intros k' Hk'. congruence.
      * rewrite update_order_missing; [exact IH |]. intros k' Hk'. congruence.
    + destruct (delete_order_order i s) as [-> | [k ->]]; [exact IH |].
      apply map_Forall_delete. exact IH.
Qed.

End Invariants.

(* ===================================================================== *)
(** * The claims *)
(* ===================================================================== *)

Section SampleFacts.

Lemma reachable_run (rs : list request) (s : Store) :
  reachable s -> reachable (run rs s).
Proof.
  revert s. induction rs as [| r rs IH]; intros s Hs; [exact Hs |].
  cbn [run fold_left]. apply IH. apply reachable_after. exact Hs.
Qed.

Lemma shop_reachable : reachable Sample.shop.
Proof. apply reachable_run, reachable_empty. Qed.

Lemma shop_order : order Sample.shop !! 1%N = Some Sample.kettle_doc.
Proof. vm_compute. reflexivity. Qed.

End SampleFacts.

(** C1, as amended.  In every store the service can reach, the persisted
    [subtotal], [discount_total] and [total] of every order are exactly the
    three values [compute_totals] returns for the items and the
    [order_discount_percent] the order holds. *)
Theorem persisted_totals_are_priced (s : Store) (k : N) (o : OrderDoc) :
  reachable s -> order s !! k = Some o -> priced (o_data o).
Proof.
  intros Hs Ho. exact (proj1 (reachable_good s Hs k o Ho)).
Qed.

Lemma persisted_totals_are_priced_witness : priced (o_data Sample.kettle_doc).
Proof.
  apply (persisted_totals_are_priced Sample.shop 1%N Sample.kettle_doc).
  - exact shop_reachable.
  - exact shop_order.
Defined.

(** C1, the part that fails.  After Alice orders one kettle at 2.50 with
    1 percent off, the stored order has subtotal 2.50, discount_total 0.03
    and total 2.48: the total is neither [subtotal - discount_total] nor
    that difference rounded to two decimals, both of which are 2.47. *)
Lemma total_differs_from_rounded_difference :
  reachable Sample.shop /\
  order Sample.shop !! 1%N = Some Sample.kettle_doc /\
  subtotal (o_data Sample.kettle_doc) = decimal 250 2 /\
  discount_total (o_data Sample.kettle_doc) = decimal 3 2 /\
  total (o_data Sample.kettle_doc) = decimal 248 2 /\
  fsub (decimal 250 2) (decimal 3 2) = decimal 247 2 /\
  round2 (fsub (decimal 250 2) (decimal 3 2)) = decimal 247 2 /\
  total_is_difference (o_data Sample.kettle_doc) = false /\
  total_is_rounded_difference (o_data Sample.kettle_doc) = false.
Proof.
  split; [exact shop_reachable |].
  split; [exact shop_order |].
  vm_compute. repeat split; reflexivity.
Qed.

Section UpdateFacts.

Lemma compute_totals_any_discount (its : list OrderItem) (x y : float) (t : Totals) :
  compute_totals its x = Ok t -> exists t', compute_totals its y = Ok t'.
Proof.
  unfold compute_totals, mbind, result_bind.
  destruct (accumulate its (zero, zero)); [eauto | discriminate].
Qed.

(** An update that supplies items or a discount and can be priced sets
    the merged values and the fresh totals. *)
Lemma update_order_reprices (s : Store) (i : string) (k : N) (d : OrderDoc)
    (p : OrderUpdate) (its : list OrderItem) (t : Totals) :
  ObjectId i = Ok k -> order s !! k = Some d ->
  recompute p = true ->
  pricing_items p d = Ok its ->
  compute_totals its (pricing_discount p d) = Ok t ->
  update_order i p s =
    (Ok (Order_json (Some (str (o_id d),
                           repriced (ou_status p) (default (items (o_data d)) (ou_items p))
                                    (pricing_discount p d) t d)) None),
     set_orders s (<[k := repriced (ou_status p) (default (items (o_data d)) (ou_items p))
                                   (pricing_discount p d) t d]> (order s))).
Proof.
  intros Hi Hd Hr Hits Ht.
  rewrite (update_order_found i p s k d Hi Hd).
  unfold build_update_fields, mbind, result_bind. rewrite Hr, Hits, Ht.
  unfold update_fields_empty, updated, apply_set, repriced, pricing_discount.
  cbn [uf_status uf_items uf_order_discount_percent uf_totals fmap option_fmap
       option_map default from_option id].
  destruct (ou_status p), (ou_items p), (ou_order_discount_percent p); reflexivity.
Qed.

(** The items priced are the supplied ones, else the stored ones. *)
Lemma pricing_items_Ok (p : OrderUpdate) (d : OrderDoc) (its : list OrderItem) :
  pricing_items p d = Ok its -> its = default (items (o_data d)) (ou_items p).
Proof.
  unfold pricing_items. destruct (ou_items p) as [l |]; cbn [default from_option id].
  - congruence.
  - intros H. apply OrderItems_of_dicts_Ok in H as [-> _]. reflexivity.
Qed.

Lemma supplied_recompute (p : OrderUpdate) :
  ou_items p <> None \/ ou_order_discount_percent p <> None -> recompute p = true.
Proof.
  intros H. destruct (recompute p) eqn:E; [reflexivity |].
  apply recompute_false in E as [E1 E2]. destruct H; congruence.
Qed.

(** An update that supplies items or a discount and cannot be priced
    raises and writes nothing. *)
Lemma update_order_unpriced (s : Store) (i : string) (k : N) (d : OrderDoc)
    (p : OrderUpdate) (e : exn) :
  ObjectId i = Ok k -> order s !! k = Some d ->
  recompute p = true ->
  (its ← pricing_items p d; compute_totals its (pricing_discount p d)) = Raise e ->
  update_order i p s = (Raise e, s).
Proof.
  intros Hi Hd Hr He.
  rewrite (update_order_found i p s k d Hi Hd).
  unfold build_update_fields, mbind, result_bind in *. rewrite Hr.
  destruct (pricing_items p d) as [its |]; [| inversion He; reflexivity].
  rewrite He. reflexivity.
Qed.

(** The stored items of an order of a reachable store can be priced
    again: they are read back as they were written. *)
Lemma reachable_pricing_items (s : Store) (k : N) (d : OrderDoc) (p : OrderUpdate) :
  reachable s -> order s !! k = Some d ->
  pricing_items p d = Ok (default (items (o_data d)) (ou_items p)).
Proof.
  intros Hs Hd. unfold pricing_items.
  destruct (ou_items p) as [l |]; cbn [default from_option id]; [reflexivity |].
  apply OrderItems_of_dicts_valid.
  exact (proj2 (reachable_good s Hs k d Hd)).
Qed.

(** An update that supplies neither leaves items, discount and derived
    fields as they are. *)
Lemma update_order_keeps (s : Store) (i : string) (k : N) (d : OrderDoc) (p : OrderUpdate) :
  ObjectId i = Ok k -> order s !! k = Some d ->
  recompute p = false ->
  let d' := repriced (ou_status p) (items (o_data d))
              (order_discount_percent (o_data d)) (totals_of (o_data d)) d in
  fst (update_order i p s) = Ok (Order_json (Some (str (o_id d), d')) None) /\
  order (snd (update_order i p s)) !! k = Some d' /\
  (forall k', k' <> k -> order (snd (update_order i p s)) !! k' = order s !! k') /\
  customer (snd (update_order i p s)) = customer s.
Proof.
  intros Hi Hd Hr d'.
  rewrite (update_order_found i p s k d Hi Hd).
  unfold build_update_fields, mbind, result_bind. rewrite Hr.
  apply recompute_false in Hr as [Hit Hx].
  unfold update_fields_empty. cbn [uf_status uf_items uf_order_discount_percent uf_totals].
  rewrite Hit, Hx.
  assert (Hnone : ou_status p = None -> d' = d).
  { intros E. subst d'. rewrite E. destruct d as [a [] b c]. reflexivity. }
  assert (Hupd : updated {| uf_status := ou_status p; uf_items := None;
                            uf_order_discount_percent := None; uf_totals := None |} d = d').
  { subst d'. reflexivity. }
  destruct (ou_status p) as [st |] eqn:Hst.
  - rewrite Hupd. cbn [fst snd set_orders order customer].
    rewrite lookup_insert_eq. repeat split; try reflexivity.
    intros k' Hk'. apply lookup_insert_ne. congruence.
  - rewrite (Hnone eq_refl). cbn [fst snd]. auto.
Qed.

End UpdateFacts.

(** C2.  On an order of a reachable store: an update with a discount and
    no items prices the persisted items with the new discount, and always
    succeeds; an update with items and no discount prices the new items
    with the persisted discount; an update with both prices the new items
    with the new discount.  In each case the priced values are the ones
    stored. *)
Theorem update_order_fallback (s : Store) (i : string) (k : N) (d : OrderDoc) :
  reachable s -> ObjectId i = Ok k -> order s !! k = Some d ->
  (forall st x, exists t,
      compute_totals (items (o_data d)) x = Ok t /\
      order (snd (update_order i
                    {| ou_status := st; ou_order_discount_percent := Some x;
                       ou_items := None |} s)) !! k
      = Some (repriced st (items (o_data d)) x t d)) /\
  (forall st l t,
      compute_totals l (order_discount_percent (o_data d)) = Ok t ->
      order (snd (update_order i
                    {| ou_status := st; ou_order_discount_percent := None;
                       ou_items := Some l |} s)) !! k
      = Some (repriced st l (order_discount_percent (o_data d)) t d)) /\
  (forall st l x t,
      compute_totals l x = Ok t ->
      order (snd (update_order i
                    {| ou_status := st; ou_order_discount_percent := Some x;
                       ou_items := Some l |} s)) !! k
      = Some (repriced st l x t d)).
Proof.
  intros Hs Hi Hd.
  destruct (reachable_good s Hs k d Hd) as [Hp Hv].
  split; [| split].
  - intros st x.
    destruct (compute_totals_any_discount _ _ x _ Hp) as [t Ht].
    exists t. split; [exact Ht |].
    rewrite (update_order_reprices s i k d _ (items (o_data d)) t Hi Hd);
      [| reflexivity | apply OrderItems_of_dicts_valid, Hv | exact Ht].
    cbn [snd set_orders order]. apply lookup_insert_eq.
  - intros st l t Ht.
    rewrite (update_order_reprices s i k d _ l t Hi Hd);
      [| reflexivity | reflexivity | exact Ht].
    cbn [snd set_orders order]. apply lookup_insert_eq.
  - intros st l x t Ht.
    rewrite (update_order_reprices s i k d _ l t Hi Hd);
      [| reflexivity | reflexivity | exact Ht].
    cbn [snd set_orders order]. apply lookup_insert_eq.
Qed.

Lemma update_order_fallback_witness :
  exists t,
    compute_totals [Sample.kettle] (of_Z 5) = Ok t /\
    order (snd (update_order Sample.order_id
                  {| ou_status := None; ou_order_discount_percent := Some (of_Z 5);
                     ou_items := None |} Sample.shop)) !! 1%N
    = Some (repriced None [Sample.kettle] (of_Z 5) t Sample.kettle_doc).
Proof.
  refine (proj1 (update_order_fallback Sample.shop Sample.order_id 1%N Sample.kettle_doc
                   _ _ _) None (of_Z 5)).
  - apply reachable_run, reachable_empty.
  - vm_compute. reflexivity.
  - vm_compute. reflexivity.
Defined.

(** C3.  On an existing order, an update recomputes the derived fields if
    and only if it supplies items or a discount.  When it supplies
    neither, [subtotal], [discount_total] and [total] (and the items and
    the discount) stay exactly as stored, whatever was stored, also when
    pricing the stored items would give something else.  When it supplies
    either, the arguments of line 174 to 177 decide: if the items [its]
    and the discount in force are priced as [t], the handler answers
    with, and stores, the document whose items are [its], whose discount
    is the one in force and whose derived fields are [t]; if they cannot
    be priced, the handler raises and the store is as it was.  In a
    reachable store the items can always be read. *)
Theorem update_order_recomputes_iff_supplied
    (s : Store) (i : string) (k : N) (d : OrderDoc) (p : OrderUpdate) :
  ObjectId i = Ok k -> order s !! k = Some d ->
  (ou_items p = None /\ ou_order_discount_percent p = None ->
   exists d',
     order (snd (update_order i p s)) !! k = Some d' /\
     subtotal (o_data d') = subtotal (o_data d) /\
     discount_total (o_data d') = discount_total (o_data d) /\
     total (o_data d') = total (o_data d) /\
     items (o_data d') = items (o_data d) /\
     order_discount_percent (o_data d') = order_discount_percent (o_data d)) /\
  (ou_items p <> None \/ ou_order_discount_percent p <> None ->
   (forall its t,
      pricing_items p d = Ok its ->
      compute_totals its (pricing_discount p d) = Ok t ->
      update_order i p s =
        (Ok (Order_json
               (Some (str (o_id d),
                      repriced (ou_status p) its (pricing_discount p d) t d)) None),
         set_orders s
           (<[k := repriced (ou_status p) its (pricing_discount p d) t d]> (order s)))) /\
   (forall e,
      (its ← pricing_items p d; compute_totals its (pricing_discount p d)) = Raise e ->
      update_order i p s = (Raise e, s)) /\
   (reachable s ->
      pricing_items p d = Ok (default (items (o_data d)) (ou_items p)))).
Proof.
  intros Hi Hd. split.
  - intros Hnone. apply recompute_false in Hnone.
    destruct (update_order_keeps s i k d p Hi Hd Hnone) as (_ & Hk & _).
    eexists. split; [exact Hk |]. cbn. auto.
  - intros Hsome. apply supplied_recompute in Hsome. repeat split.
    + intros its t Hits Ht.
      rewrite (update_order_reprices s i k d p its t Hi Hd Hsome Hits Ht).
      rewrite <- (pricing_items_Ok p d its Hits). reflexivity.
    + intros e He. exact (update_order_unpriced s i k d p e Hi Hd Hsome He).
    + intros Hs. exact (reachable_pricing_items s k d p Hs Hd).
Qed.

Lemma update_order_recomputes_iff_supplied_witness :
  (exists d',
     order (snd (update_order Sample.order_id (Sample.status_only "Paid") Sample.stale_shop))
       !! 1%N = Some d' /\
     subtotal (o_data d') = decimal 999 2 /\
     discount_total (o_data d') = decimal 0 2 /\
     total (o_data d') = decimal 999 2 /\
     items (o_data d') = [Sample.kettle] /\
     order_discount_percent (o_data d') = of_Z 1) /\
  update_order Sample.order_id Fixtures.ten_percent Sample.stale_shop
  = (Ok (Order_json
           (Some (str 1%N,
                  repriced None [Sample.kettle] (of_Z 10) Fixtures.ten_percent_totals
                           Sample.stale_doc)) None),
     set_orders Sample.stale_shop
       (<[1%N := repriced None [Sample.kettle] (of_Z 10) Fixtures.ten_percent_totals
                          Sample.stale_doc]> (order Sample.stale_shop))).
Proof.
  split.
  - refine (proj1 (update_order_recomputes_iff_supplied Sample.stale_shop Sample.order_id 1%N
                     Sample.stale_doc (Sample.status_only "Paid") _ _) _).
    + vm_compute. reflexivity.
    + vm_compute. reflexivity.
    + split; reflexivity.
  - refine (proj1 (proj2 (update_order_recomputes_iff_supplied Sample.stale_shop
                            Sample.order_id 1%N Sample.stale_doc Fixtures.ten_percent _ _) _)
                  [Sample.kettle] Fixtures.ten_percent_totals _ _).
    + vm_compute. reflexivity.
    + vm_compute. reflexivity.
    + right. discriminate.
    + vm_compute. reflexivity.
    + vm_compute. reflexivity.
Defined.

(** C4.  The worked example: one item, two units at 50.00 with 10 percent
    off, and 5 percent off the order.  The line subtotal is 100.00 and the
    line discount 10.00; after the item discounts 90.00 remain, of which
    the order discount takes 4.50; the engine returns subtotal 100.00,
    discount_total 14.50 and total 85.50. *)
Theorem worked_example :
  line_sub Sample.example_item = Ok (decimal 10000 2) /\
  line_discount (decimal 10000 2) Sample.example_item = decimal 1000 2 /\
  accumulate [Sample.example_item] (zero, zero) = Ok (decimal 10000 2, decimal 1000 2) /\
  after_item_discounts (decimal 10000 2, decimal 1000 2) = decimal 9000 2 /\
  order_discount (decimal 10000 2, decimal 1000 2) (of_Z 5) = decimal 450 2 /\
  compute_totals [Sample.example_item] (of_Z 5)
  = Ok {| t_subtotal := decimal 10000 2;
          t_discount_total := decimal 1450 2;
          t_total := decimal 8550 2 |}.
Proof. vm_compute. repeat split; reflexivity. Qed.

Section CustomerGuard.

Lemma ObjectId_truthy (i : string) (k : N) : ObjectId i = Ok k -> truthy i = true.
Proof.
  unfold ObjectId. destruct i as [| c i]; [| reflexivity].
  cbn. discriminate.
Qed.

(** A well-formed identifier that matches no customer is refused with
    status 400, and the store is left alone. *)
Lemma create_order_unknown_customer (p : OrderCreate) (s : Store) (k : N) :
  ObjectId (oc_customer_id p) = Ok k -> customer s !! k = None ->
  create_order p s = (Raise (HTTPException 400 "Invalid customer_id"), s).
Proof.
  intros Hi Hc. unfold create_order. run. rewrite Hi. cbn beta iota.
  rewrite Hc. reflexivity.
Qed.

Lemma find_email_present (s : Store) (e : string) (k : N) (d : CustomerDoc) :
  customer s !! k = Some d -> c_email (cd_data d) = e ->
  exists d', fst (find_one_customer_by_email e s) = Ok (Some d').
Proof.
  intros Hk He. unfold find_one_customer_by_email. cbn [fst].
  destruct (list_find _ _) as [[n [k' d']] |] eqn:Hf.
  - exists d'. reflexivity.
  - exfalso. apply list_find_None in Hf.
    rewrite Forall_forall in Hf.
    apply (Hf (k, d)); [| exact He].
    apply elem_of_map_to_list. exact Hk.
Qed.

End CustomerGuard.

(** The lookup by email is exact: the same address in another case is a
    new customer, stored under the next identifier. *)
Lemma create_customer_case_sensitive :
  customer (snd (create_customer Sample.alice_upper Sample.shop)) !! 2%N
  = Some {| cd_id := 2%N; cd_data := Sample.alice_upper;
            cd_created_at := 2%N; cd_updated_at := 2%N |}.
Proof. vm_compute. reflexivity. Qed.

(** C5, at the input where the code departs from it.  The customer id
    ["abc"] resolves to no customer, yet [create_order] does not answer
    with the [HTTPException] of status 400: [ObjectId] raises [InvalidId],
    which no handler catches.  The store is unchanged. *)
Theorem create_order_malformed_customer_id
    (s : Store) (st : option string) (x : float) (l : list OrderItem) :
  create_order {| oc_customer_id := "abc"; oc_status := st;
                  oc_order_discount_percent := x; oc_items := l |} s
  = (Raise InvalidId, s).
Proof. reflexivity. Qed.

(** C6.  When some stored customer has exactly the email of the new one,
    [create_customer] raises the [HTTPException] of status 400 with detail
    ["Email already exists"], and the store is exactly as before. *)
Theorem create_customer_duplicate_email
    (s : Store) (c : Customer) (k : N) (d : CustomerDoc) :
  customer s !! k = Some d -> c_email (cd_data d) = c_email c ->
  create_customer c s = (Raise (HTTPException 400 "Email already exists"), s).
Proof.
  intros Hk He.
  destruct (find_email_present s (c_email c) k d Hk He) as [d' Hd'].
  unfold create_customer. run.
  unfold find_one_customer_by_email in Hd'. cbn [fst] in Hd'.
  inversion Hd' as [Hf]. rewrite Hf. reflexivity.
Qed.

Lemma create_customer_duplicate_email_witness :
  create_customer Sample.alice Sample.shop
  = (Raise (HTTPException 400 "Email already exists"), Sample.shop).
Proof.
  apply (create_customer_duplicate_email Sample.shop Sample.alice 0%N Sample.alice_doc).
  - vm_compute. reflexivity.
  - reflexivity.
Defined.

(** C7.  For every binary64 [order_discount_percent] with
    [0 <= order_discount_percent <= 100], pricing no items gives subtotal
    0.0, discount_total 0.0 and total 0.0. *)
Theorem compute_totals_empty (x : float) :
  is_binary64 x = true -> is_percent x = true ->
  compute_totals [] x = Ok zero_totals.
Proof.
  intros Hv Hp. apply compute_totals_nil; [exact Hv |].
  apply is_percent_finite, Hp.
Qed.

Lemma compute_totals_empty_witness :
  compute_totals [] (decimal 125 1) = Ok zero_totals.
Proof.
  apply (compute_totals_empty (decimal 125 1)); vm_compute; reflexivity.
Defined.

(** C8.  Deleting a customer that an order refers to succeeds and leaves
    the order collection as it was; reading that order afterwards succeeds
    and returns the stored document with [customer_name] set to [None]. *)
Theorem orphaned_order_is_readable
    (s : Store) (ci oi : string) (ck ok : N) (c : CustomerDoc) (o : OrderDoc) :
  ObjectId ci = Ok ck -> customer s !! ck = Some c ->
  ObjectId oi = Ok ok -> order s !! ok = Some o ->
  ObjectId (customer_id (o_data o)) = Ok ck ->
  fst (delete_customer ci s) = Ok Deleted_json /\
  order (snd (delete_customer ci s)) = order s /\
  customer (snd (delete_customer ci s)) !! ck = None /\
  get_order oi (snd (delete_customer ci s))
  = (Ok (Order_json (Some (str (o_id o), o)) (Some None)), snd (delete_customer ci s)).
Proof.
  intros Hci Hc Hoi Ho Href.
  assert (Hdel : delete_customer ci s = (Ok Deleted_json, set_customers s (delete ck (customer s)))).
  { unfold delete_customer. run. rewrite Hci. cbn beta iota. rewrite Hc. reflexivity. }
  rewrite Hdel. cbn [fst snd set_customers order customer].
  split; [reflexivity |]. split; [reflexivity |].
  split; [apply lookup_delete_eq |].
  unfold get_order, referenced_customer. run. rewrite Hoi. cbn beta iota.
  cbn [order set_customers]. rewrite Ho.
  rewrite (ObjectId_truthy _ _ Href), Href. cbn beta iota. cbn [customer set_customers].
  rewrite lookup_delete_eq. reflexivity.
Qed.

Lemma orphaned_order_is_readable_witness :
  get_order Sample.order_id (snd (delete_customer Sample.alice_id Sample.shop))
  = (Ok (Order_json (Some (Sample.order_id, Sample.kettle_doc)) (Some None)),
     snd (delete_customer Sample.alice_id Sample.shop)).
Proof.
  refine (proj2 (proj2 (proj2 (orphaned_order_is_readable Sample.shop Sample.alice_id
            Sample.order_id 0%N 1%N Sample.alice_doc Sample.kettle_doc _ _ _ _ _))));
    vm_compute; reflexivity.
Defined.

Section Frame.

(** What an update of an existing order can and cannot change. *)
Lemma update_order_frame (s : Store) (i : string) (k : N) (d : OrderDoc) (p : OrderUpdate) :
  ObjectId i = Ok k -> order s !! k = Some d ->
  (exists d',
      order (snd (update_order i p s)) !! k = Some d' /\
      o_id d' = o_id d /\
      customer_id (o_data d') = customer_id (o_data d) /\
      o_created_at d' = o_created_at d /\
      o_updated_at d' = o_updated_at d /\
      (totals_of (o_data d') = totals_of (o_data d) \/
       exists its x, compute_totals its x = Ok (totals_of (o_data d')))) /\
  (forall k', k' <> k -> order (snd (update_order i p s)) !! k' = order s !! k') /\
  customer (snd (update_order i p s)) = customer s.
Proof.
  intros Hi Hd. rewrite (update_order_found i p s k d Hi Hd).
  destruct (build_update_fields p d) as [u |] eqn:Hb.
  - destruct (update_fields_empty u).
    + cbn [snd]. split; [| split]; [| reflexivity | reflexivity].
      exists d. repeat split; auto.
    + cbn [snd set_orders order customer].
      split; [| split]; [| | reflexivity].
      * exists (updated u d). rewrite lookup_insert_eq.
        repeat split; try reflexivity.
        destruct (build_update_fields_Ok p d u Hb)
          as (_ & _ & _ & [[_ Hu] | [_ (its & t & _ & Ht & Hu)]]).
        -- left. unfold totals_of, updated, apply_set.
           cbn [o_data subtotal discount_total total]. rewrite Hu. reflexivity.
        -- right. exists its, (pricing_discount p d). rewrite Ht.
           unfold totals_of, updated, apply_set.
           cbn [o_data subtotal discount_total total]. rewrite Hu.
           cbn [fmap option_fmap option_map default from_option id].
           rewrite totals_eta. reflexivity.
      * intros k' Hk'. apply lookup_insert_ne. congruence.
  - cbn [snd]. split; [| split]; [| reflexivity | reflexivity].
    exists d. repeat split; auto.
Qed.

End Frame.

(** C9.  A body sent to [PUT /orders/{order_id}] is read through the three
    fields [OrderUpdate] declares: a value under any other key, such as
    ["subtotal"], ["discount_total"] or ["total"], changes neither the
    answer nor the store.  The update of an existing order keeps its
    [_id], its [customer_id] and its timestamps; its derived fields are
    afterwards either the stored ones or values [compute_totals]
    returned; no other order and no customer is touched. *)
Theorem update_keeps_customer_and_ignores_totals
    (json : Type)
    (optional_str : json -> result (option string))
    (optional_float : json -> result (option float))
    (optional_items : json -> result (option (list OrderItem)))
    (s : Store) (i : string) (k : N) (d : OrderDoc) (body : gmap string json) :
  ObjectId i = Ok k -> order s !! k = Some d ->
  let put := put_order json optional_str optional_float optional_items i in
  (forall key v,
      key <> "status" -> key <> "order_discount_percent" -> key <> "items" ->
      put (<[key := v]> body) s = put body s) /\
  (exists d',
      order (snd (put body s)) !! k = Some d' /\
      o_id d' = o_id d /\
      customer_id (o_data d') = customer_id (o_data d) /\
      o_created_at d' = o_created_at d /\
      o_updated_at d' = o_updated_at d /\
      (totals_of (o_data d') = totals_of (o_data d) \/
       exists its x, compute_totals its x = Ok (totals_of (o_data d')))) /\
  (forall k', k' <> k -> order (snd (put body s)) !! k' = order s !! k') /\
  customer (snd (put body s)) = customer s.
Proof.
  intros Hi Hd put. subst put. split.
  - intros key v H1 H2 H3. unfold put_order, OrderUpdate_validate.
    rewrite !lookup_insert_ne by congruence. reflexivity.
  - unfold put_order.
    destruct (OrderUpdate_validate _ _ _ _ body) as [p | e].
    + apply update_order_frame; assumption.
    + cbn [raise snd]. split; [| split]; [| reflexivity | reflexivity].
      exists d. repeat split; auto.
Qed.

Lemma update_keeps_customer_and_ignores_totals_witness :
  put_order Sample.json Sample.optional_str Sample.optional_float Sample.optional_items
    Sample.order_id (<["total" := Sample.JNumber (of_Z 0)]> Sample.paid_body) Sample.shop
  = put_order Sample.json Sample.optional_str Sample.optional_float Sample.optional_items
      Sample.order_id Sample.paid_body Sample.shop.
Proof.
  refine (proj1 (update_keeps_customer_and_ignores_totals Sample.json Sample.optional_str
                   Sample.optional_float Sample.optional_items Sample.shop Sample.order_id
                   1%N Sample.kettle_doc Sample.paid_body _ _) "total" _ _ _ _).
  - vm_compute. reflexivity.
  - vm_compute. reflexivity.
  - discriminate.
  - discriminate.
  - discriminate.
Defined.

(** C10, as amended.  An update whose items are the empty list is an
    update with items: whatever items were stored, the stored items
    become the empty list and the derived fields become what
    [compute_totals] returns for no items and the discount in force (the
    supplied one, else the stored one).  For every finite discount, so
    for every percentage, these are 0.0, 0.0 and 0.0; for a discount that
    is an infinity or no number they are 0.0, NaN and NaN. *)
Theorem update_order_empty_items
    (s : Store) (i : string) (k : N) (d : OrderDoc)
    (st : option string) (xo : option float) :
  ObjectId i = Ok k -> order s !! k = Some d ->
  exists t,
    compute_totals [] (default (order_discount_percent (o_data d)) xo) = Ok t /\
    order (snd (update_order i
                  {| ou_status := st; ou_order_discount_percent := xo;
                     ou_items := Some [] |} s)) !! k
    = Some (repriced st [] (default (order_discount_percent (o_data d)) xo) t d) /\
    (is_binary64 (default (order_discount_percent (o_data d)) xo) = true ->
     is_finite (default (order_discount_percent (o_data d)) xo) = true ->
     t = zero_totals) /\
    (is_finite (default (order_discount_percent (o_data d)) xo) = false ->
     t = nan_totals).
Proof.
  intros Hi Hd.
  destruct (compute_totals [] (default (order_discount_percent (o_data d)) xo))
    as [t | e] eqn:Ht; [| discriminate].
  exists t. split; [reflexivity |]. split; [| split].
  - rewrite (update_order_reprices s i k d _ [] t Hi Hd).
    + cbn [snd set_orders order]. rewrite lookup_insert_eq.
      destruct xo; reflexivity.
    + reflexivity.
    + reflexivity.
    + unfold pricing_discount. cbn [ou_order_discount_percent].
      destruct xo; exact Ht.
  - intros Hv Hf. rewrite (compute_totals_nil _ Hv Hf) in Ht. congruence.
  - intros Hf. rewrite (compute_totals_nil_not_finite _ Hf) in Ht. congruence.
Qed.

Lemma update_order_empty_items_witness :
  items (o_data Sample.kettle_doc) = [Sample.kettle] /\
  exists t,
    compute_totals [] (of_Z 1) = Ok t /\
    order (snd (update_order Sample.order_id
                  {| ou_status := None; ou_order_discount_percent := None;
                     ou_items := Some [] |} Sample.shop)) !! 1%N
    = Some (repriced None [] (of_Z 1) t Sample.kettle_doc) /\
    (is_binary64 (of_Z 1) = true -> is_finite (of_Z 1) = true -> t = zero_totals) /\
    (is_finite (of_Z 1) = false -> t = nan_totals).
Proof.
  split; [reflexivity |].
  apply (update_order_empty_items Sample.shop Sample.order_id 1%N Sample.kettle_doc None None).
  - vm_compute. reflexivity.
  - exact shop_order.
Defined.

(** C10, the claim as the spec has it fails.  Alice's order was placed
    with [Infinity] as order discount, which [OrderCreate] accepts: the
    store is reachable.  The update that supplies the empty list of items
    and nothing else succeeds and stores no items, subtotal 0.0,
    discount_total NaN and total NaN.  The same happens to the order of
    the sample shop when the update supplies NaN as discount.  NaN is not
    0.0. *)
Lemma update_order_empty_items_not_zero :
  OrderCreate_valid Fixtures.unbounded_order = true /\
  reachable Fixtures.unbounded_shop /\
  (exists r, fst (update_order Sample.order_id Fixtures.no_items Fixtures.unbounded_shop)
             = Ok r) /\
  (fun o => (items (o_data o), totals_of (o_data o))) <$>
    order (snd (update_order Sample.order_id Fixtures.no_items Fixtures.unbounded_shop)) !! 1%N
  = Some ([], nan_totals) /\
  (fun o => (items (o_data o), totals_of (o_data o))) <$>
    order (snd (update_order Sample.order_id Fixtures.no_items_nan Sample.shop)) !! 1%N
  = Some ([], nan_totals) /\
  feq (t_discount_total nan_totals) zero = false /\
  feq (t_total nan_totals) zero = false /\
  nan_totals <> zero_totals.
Proof.
  split; [reflexivity |]. split.
  { apply reachable_run. constructor. }
  split; [eexists; vm_compute; reflexivity |].
  split; [vm_compute; reflexivity |].
  split; [vm_compute; reflexivity |].
  split; [reflexivity |]. split; [reflexivity |]. discriminate.
Qed.

(* ===================================================================== *)
(** * Beyond the claims *)
(* ===================================================================== *)

(* ===================================================================== *)
(** * The effect of a request, and what it preserves *)
(* ===================================================================== *)

Section Effects.

(** Every request performs at most one write, of one of the listed kinds. *)
Lemma handle_effect (r : request) (s : Store) : effect s (after r s).
Proof.
  unfold after. destruct r as [c | i | i c | i | p | i | i p | i]; cbn [handle].
  - unfold create_customer. run.
    destruct (list_find _ _); cbn [fmap option_fmap option_map snd]; [constructor |].
    destruct (ObjectId (str (next_id s))); apply (effect_insert_customer s c).
  - rewrite get_customer_store. constructor.
  - unfold update_customer. run.
    destruct (ObjectId i) as [k |]; [| constructor]. cbn beta iota.
    destruct (customer s !! k) as [d |] eqn:Hd; [| constructor].
    cbn beta iota. cbn [snd].
    pose proof (effect_update_customer s k d c Hd) as E.
    unfold update_one_customer in E. rewrite Hd in E. exact E.
  - unfold delete_customer. run.
    destruct (ObjectId i) as [k |]; [| constructor]. cbn beta iota.
    destruct (customer s !! k) as [d |] eqn:Hd; [| constructor].
    apply (effect_delete_customer s k).
  - destruct (OrderCreate_valid p); [| constructor].
    unfold create_order. run.
    destruct (ObjectId (oc_customer_id p)) as [k |] eqn:Hk; [| constructor].
    cbn beta iota.
    destruct (customer s !! k) as [c |] eqn:Hc; [| constructor].
    destruct (compute_totals _ _) as [t |] eqn:Ht; [| constructor].
    cbn beta iota.
    destruct (ObjectId (str (next_id s))); apply (effect_insert_order s p t k c Hk Hc Ht).
  - rewrite get_order_store. constructor.
  - destruct (OrderUpdate_valid p); [| constructor].
    destruct (ObjectId i) as [k |] eqn:Hi.
    + destruct (order s !! k) as [d |] eqn:Hd.
      * rewrite (update_order_found i p s k d Hi Hd).
        destruct (build_update_fields p d) as [u |]; [| constructor].
        destruct (update_fields_empty u); [constructor |].
        apply (effect_update_order s k d u Hd).
      * rewrite update_order_missing; [constructor |]. intros k' Hk'. congruence.
    + rewrite update_order_missing; [constructor |]. intros k' Hk'. congruence.
  - unfold delete_order. run.
    destruct (ObjectId i) as [k |]; [| constructor]. cbn beta iota.
    destruct (order s !! k) as [d |] eqn:Hd; [| constructor].
    apply (effect_delete_order s k).
Qed.

Lemma effect_ids_in_order (s s' : Store) :
  effect s s' -> ids_in_order s -> ids_in_order s'.
Proof.
  intros E [Hc Ho]. destruct E as [| c | p t k c Hk Hcu Ht | k d c Hd | k d u Hd | k | k].
  - split; assumption.
  - cbn [create_document_customer snd]. split; cbn [customer order next_id]; intros k d.
    + rewrite lookup_insert. case_decide as E.
      * intros [= <-]. cbn. split; [lia | congruence].
      * intros Hk. destruct (Hc k d Hk). split; [lia | assumption].
    + intros Hk. destruct (Ho k d Hk). split; [lia | assumption].
  - split; cbn [customer order next_id]; intros k' d.
    + intros Hk'. destruct (Hc k' d Hk'). split; [lia | assumption].
    + rewrite lookup_insert. case_decide as E.
      * intros [= <-]. cbn. split; [lia | congruence].
      * intros Hk'. destruct (Ho k' d Hk'). split; [lia | assumption].
  - unfold update_one_customer. rewrite Hd. cbn [snd].
    split; cbn [customer order next_id]; [| exact Ho]. intros k' d'.
    rewrite lookup_insert. case_decide as E.
    + intros [= <-]. cbn. subst k'. exact (Hc k d Hd).
    + apply Hc.
  - split; cbn [set_orders customer order next_id]; [exact Hc |]. intros k' d'.
    rewrite lookup_insert. case_decide as E.
    + intros [= <-]. cbn. subst k'. exact (Ho k d Hd).
    + apply Ho.
  - split; cbn [set_customers customer order next_id]; [| exact Ho]. intros k' d'.
    intros H. apply lookup_delete_Some in H as [_ H]. exact (Hc k' d' H).
  - split; cbn [set_orders customer order next_id]; [exact Hc |]. intros k' d'.
    intros H. apply lookup_delete_Some in H as [_ H]. exact (Ho k' d' H).
Qed.

Lemma effect_references (s s' : Store) :
  effect s s' -> references_well_formed s -> references_well_formed s'.
Proof.
  intros E H. destruct E as [| c | p t k c Hk Hcu Ht | k d c Hd | k d u Hd | k | k].
  - exact H.
  - exact H.
  - intros k' d'. cbn [order]. rewrite lookup_insert. case_decide as E.
    + intros [= <-]. exists k. exact Hk.
    + apply H.
  - unfold update_one_customer. rewrite Hd. exact H.
  - intros k' d'. cbn [set_orders order]. rewrite lookup_insert. case_decide as E.
    + intros [= <-]. exact (H k d Hd).
    + apply H.
  - exact H.
  - intros k' d'. cbn [set_orders order]. intros Hl.
    apply lookup_delete_Some in Hl as [_ Hl]. exact (H k' d' Hl).
Qed.

Lemma reachable_ids_in_order (s : Store) : reachable s -> ids_in_order s.
Proof.
  induction 1 as [| s r Hs IH].
  - split; intros k d; cbn; rewrite lookup_empty; discriminate.
  - exact (effect_ids_in_order s _ (handle_effect r s) IH).
Qed.

Lemma reachable_references (s : Store) : reachable s -> references_well_formed s.
Proof.
  induction 1 as [| s r Hs IH].
  - intros k d. cbn. rewrite lookup_empty. discriminate.
  - exact (effect_references s _ (handle_effect r s) IH).
Qed.

End Effects.

(* ===================================================================== *)
(** * More about the pricing engine *)
(* ===================================================================== *)

Arguments float_of_int : simpl never.
Arguments line_sub : simpl never.

Section Conversion.

Lemma iter_xO_pow (m d : positive) : Zpos (Pos.iter xO m d) = Zpos m * 2 ^ Zpos d.
Proof.
  induction d as [| d IH] using Pos.peano_ind.
  - cbn [Pos.iter]. rewrite (Pos2Z.inj_xO m). lia.
  - rewrite Pos.iter_succ, (Pos2Z.inj_xO (Pos.iter xO m d)), IH, Pos2Z.inj_succ.
    rewrite Z.pow_succ_r by lia. lia.
Qed.

(** Rounding [m * 2^0] stays in range when [m < 2^1023]. *)
Lemma binary_round_int_is_finite (sx : bool) (m : positive) :
  Zpos m < 2 ^ 1023 -> is_finite (binary_round prec emax sx m 0) = true.
Proof.
  intros Hm. unfold binary_round, shl_align.
  set (fe := fexp prec emax (Zpos (digits2_pos m) + 0)).
  assert (Hfe : fe <= 971).
  { subst fe. apply fexp_le.
    pose proof (Zdigits2_le (Zpos m) 1023 ltac:(lia) ltac:(lia) Hm) as H.
    cbn [Zdigits2] in H. lia. }
  destruct (fe - 0) as [| d | d] eqn:Hd.
  - apply binary_round_aux_is_finite; [lia | lia |].
    rewrite Z.sub_0_r. exact Hm.
  - apply binary_round_aux_is_finite; [lia | lia |].
    rewrite Z.sub_0_r. exact Hm.
  - apply binary_round_aux_is_finite; [lia | lia |].
    rewrite iter_xO_pow.
    replace (1023 - fe) with (1023 + Zpos d) by lia.
    rewrite Z.pow_add_r by lia.
    apply Z.mul_lt_mono_pos_r; [apply Z.pow_pos_nonneg; lia | exact Hm].
Qed.

(** An integer of magnitude below [2^1023] converts to a float. *)
Lemma float_of_int_bounded (z : Z) :
  Z.abs z < 2 ^ 1023 -> exists x, float_of_int z = Some x /\ is_finite x = true.
Proof.
  intros Hz. unfold float_of_int, of_Z, binary_normalize.
  destruct z as [| m | m].
  - eexists. split; reflexivity.
  - pose proof (binary_round_int_is_finite false m Hz) as H.
    destruct (binary_round prec emax false m 0); try discriminate; eauto.
  - pose proof (binary_round_int_is_finite true m Hz) as H.
    destruct (binary_round prec emax true m 0); try discriminate; eauto.
Qed.

End Conversion.

Section Failure.

Lemma line_sub_cases (it : OrderItem) :
  (exists q, float_of_int (quantity it) = Some q /\ line_sub it = Ok (fmul q (unit_price it))) \/
  (float_of_int (quantity it) = None /\ line_sub it = Raise OverflowError).
Proof.
  unfold line_sub. destruct (float_of_int (quantity it)) as [q |]; [left | right]; eauto.
Qed.

Lemma accumulate_Raise (its : list OrderItem) :
  forall acc e,
    accumulate its acc = Raise e ->
    e = OverflowError /\ Exists (fun it => float_of_int (quantity it) = None) its.
Proof.
  induction its as [| it its IH]; intros acc e H; cbn [accumulate] in H; [discriminate |].
  destruct (line_sub_cases it) as [(q & Hq & Hl) | [Hq Hl]]; rewrite Hl in H;
    cbn [mbind result_bind] in H.
  - destruct (IH _ _ H) as [He Hex]. split; [exact He | apply Exists_cons_tl, Hex].
  - inversion H. split; [reflexivity | apply Exists_cons_hd, Hq].
Qed.

Lemma accumulate_overflow (its : list OrderItem) :
  Exists (fun it => float_of_int (quantity it) = None) its ->
  forall acc, accumulate its acc = Raise OverflowError.
Proof.
  induction 1 as [it its Hq | it its Hex IH]; intros acc; cbn [accumulate].
  - unfold line_sub. rewrite Hq. reflexivity.
  - destruct (line_sub_cases it) as [(q & Hq & Hl) | [Hq Hl]]; rewrite Hl;
      cbn [mbind result_bind]; [apply IH | reflexivity].
Qed.

End Failure.

Section FailureOfTotals.

Lemma compute_totals_Raise (its : list OrderItem) (x : float) (e : exn) :
  compute_totals its x = Raise e ->
  e = OverflowError /\ Exists (fun it => float_of_int (quantity it) = None) its.
Proof.
  unfold compute_totals, mbind, result_bind.
  destruct (accumulate its (zero, zero)) as [acc | e'] eqn:Ha; [discriminate |].
  intros [= <-]. exact (accumulate_Raise its _ _ Ha).
Qed.

End FailureOfTotals.

(** X1.  [compute_totals] fails exactly when the quantity of some item is
    too large to convert to a float, and then with [OverflowError]; the
    discount plays no part in it. *)
Theorem compute_totals_raises_iff (its : list OrderItem) (x : float) (e : exn) :
  compute_totals its x = Raise e <->
  e = OverflowError /\ Exists (fun it => float_of_int (quantity it) = None) its.
Proof.
  split; [apply compute_totals_Raise |].
  intros [-> Hex]. unfold compute_totals, mbind, result_bind.
  rewrite (accumulate_overflow its Hex). reflexivity.
Qed.

(** X2.  When every quantity is below [2^1023] in magnitude, as every
    64-bit integer is, [compute_totals] returns totals. *)
Theorem compute_totals_succeeds (its : list OrderItem) (x : float) :
  Forall (fun it => Z.abs (quantity it) < 2 ^ 1023) its ->
  exists t, compute_totals its x = Ok t.
Proof.
  intros Hq. destruct (compute_totals its x) as [t | e] eqn:Hc; [eauto |].
  exfalso. apply compute_totals_Raise in Hc as [_ Hex].
  apply Exists_exists in Hex as (it & Hin & Hnone).
  rewrite Forall_forall in Hq.
  destruct (float_of_int_bounded (quantity it) (Hq it Hin)) as (q & Hsome & _).
  congruence.
Qed.

Lemma compute_totals_succeeds_witness :
  exists t, compute_totals [Sample.kettle; Sample.example_item] (of_Z 5) = Ok t.
Proof.
  apply (compute_totals_succeeds [Sample.kettle; Sample.example_item] (of_Z 5)).
  repeat constructor.
Defined.

Section Subtotal.

Lemma same_line_sub (a b : OrderItem) : same_line a b -> line_sub a = line_sub b.
Proof. intros [Hq Hp]. unfold line_sub. rewrite Hq, Hp. reflexivity. Qed.

Lemma accumulate_fst (its its' : list OrderItem) :
  Forall2 same_line its its' ->
  forall a b b' r r',
    accumulate its (a, b) = Ok r -> accumulate its' (a, b') = Ok r' -> fst r = fst r'.
Proof.
  induction 1 as [| it it' its its' Hl Hrest IH]; intros a b b' r r' Hr Hr';
    cbn [accumulate] in Hr, Hr'.
  - inversion Hr. inversion Hr'. reflexivity.
  - rewrite <- (same_line_sub it it' Hl) in Hr'.
    destruct (line_sub it) as [ls |]; cbn [mbind result_bind fst snd] in Hr, Hr';
      [| discriminate].
    exact (IH _ _ _ _ _ Hr Hr').
Qed.

End Subtotal.

(** X3.  The subtotal depends on the quantities and unit prices alone:
    two item lists that agree on them get the same subtotal, whatever
    their item discounts and whatever the order discounts. *)
Theorem subtotal_ignores_discounts
    (its its' : list OrderItem) (x x' : float) (t t' : Totals) :
  Forall2 same_line its its' ->
  compute_totals its x = Ok t -> compute_totals its' x' = Ok t' ->
  t_subtotal t = t_subtotal t'.
Proof.
  intros Hl. unfold compute_totals, mbind, result_bind.
  destruct (accumulate its (zero, zero)) as [r |] eqn:Hr; [| discriminate].
  destruct (accumulate its' (zero, zero)) as [r' |] eqn:Hr'; [| discriminate].
  intros [= <-] [= <-]. cbn [t_subtotal].
  rewrite (accumulate_fst its its' Hl _ _ _ _ _ Hr Hr'). reflexivity.
Qed.

Lemma subtotal_ignores_discounts_witness :
  t_subtotal {| t_subtotal := decimal 10000 2; t_discount_total := decimal 1450 2;
                t_total := decimal 8550 2 |}
  = t_subtotal {| t_subtotal := decimal 10000 2; t_discount_total := zero;
                  t_total := decimal 10000 2 |}.
Proof.
  apply (subtotal_ignores_discounts [Sample.example_item] [Fixtures.example_item_plain]
           (of_Z 5) zero).
  - repeat constructor.
  - vm_compute. reflexivity.
  - vm_compute. reflexivity.
Defined.

Section NonFinite.

Lemma fdiv_not_finite (x y : float) :
  is_finite x = false -> is_finite y = true -> is_finite (fdiv x y) = false.
Proof. destruct x as [| | |]; destruct y as [| | |]; try discriminate; reflexivity. Qed.

Lemma fmul_not_finite (a y : float) : is_finite y = false -> is_finite (fmul a y) = false.
Proof. destruct a as [| | |]; destruct y as [| | |]; try discriminate; reflexivity. Qed.

Lemma fadd_not_finite (a y : float) : is_finite y = false -> is_finite (fadd a y) = false.
Proof.
  destruct a as [| [] | |]; destruct y as [| [] | |]; try discriminate; reflexivity.
Qed.

Lemma fsub_not_finite (a y : float) : is_finite y = false -> is_finite (fsub a y) = false.
Proof.
  destruct a as [| [] | |]; destruct y as [| [] | |]; try discriminate; reflexivity.
Qed.

Lemma round2_not_finite (y : float) : is_finite y = false -> is_finite (round2 y) = false.
Proof. destruct y; try discriminate; reflexivity. Qed.

End NonFinite.

(** X4.  The engine does not guard the order discount: when it is an
    infinity or NaN, [discount_total] and [total] come out as an infinity
    or NaN, whatever the items. *)
Theorem non_finite_discount_spoils_totals (its : list OrderItem) (x : float) (t : Totals) :
  is_finite x = false -> compute_totals its x = Ok t ->
  is_finite (t_discount_total t) = false /\ is_finite (t_total t) = false.
Proof.
  intros Hx. unfold compute_totals, mbind, result_bind.
  destruct (accumulate its (zero, zero)) as [acc |]; [| discriminate].
  intros [= <-]. cbn [t_discount_total t_total].
  assert (Hod : is_finite (order_discount acc x) = false).
  { unfold order_discount. apply fmul_not_finite, fdiv_not_finite; [exact Hx | reflexivity]. }
  split; apply round2_not_finite; [apply fadd_not_finite | apply fsub_not_finite]; exact Hod.
Qed.

Lemma non_finite_discount_spoils_totals_witness :
  is_finite (t_discount_total {| t_subtotal := decimal 250 2; t_discount_total := S754_nan;
                                 t_total := S754_nan |}) = false /\
  is_finite (t_total {| t_subtotal := decimal 250 2; t_discount_total := S754_nan;
                        t_total := S754_nan |}) = false.
Proof.
  apply (non_finite_discount_spoils_totals [Sample.kettle] S754_nan).
  - reflexivity.
  - vm_compute. reflexivity.
Defined.

Section NoDiscount.

Lemma fadd_finite_inv (x y : float) :
  is_finite (fadd x y) = true -> is_finite x = true /\ is_finite y = true.
Proof.
  destruct x as [sx | sx | | sx mx ex]; destruct y as [sy | sy | | sy my ey];
    try (intros _; split; reflexivity);
    unfold fadd, SFadd; try destruct sx; try destruct sy; discriminate.
Qed.

Lemma fsub_zero_r (x : float) : fsub x zero = x.
Proof. destruct x as [[] | [] | |]; reflexivity. Qed.

Lemma round2_finite_inv (x : float) : is_finite (round2 x) = true -> is_finite x = true.
Proof. destruct x; try discriminate; reflexivity. Qed.

Lemma feq_refl (x : float) : is_finite x = true -> feq x x = true.
Proof.
  destruct x as [s | s | | s m e]; try discriminate; intros _; [reflexivity |].
  unfold feq, SFeqb, SFcompare.
  destruct s; rewrite Z.compare_refl, Pos.compare_cont_refl; reflexivity.
Qed.

Lemma accumulate_finite_back (its : list OrderItem) :
  forall a b r,
    accumulate its (a, b) = Ok r -> is_finite (fst r) = true -> is_finite a = true.
Proof.
  induction its as [| it its IH]; intros a b r Hr Hf; cbn [accumulate] in Hr.
  - inversion Hr; subst r. exact Hf.
  - destruct (line_sub it) as [ls |]; cbn [mbind result_bind fst snd] in Hr; [| discriminate].
    apply (fadd_finite_inv a ls). exact (IH _ _ _ Hr Hf).
Qed.

(** The discount of a line without discount is a zero. *)
Lemma line_discount_none (ls : float) (it : OrderItem) :
  discount_percent it = zero -> is_finite ls = true ->
  fadd zero (line_discount ls it) = zero.
Proof.
  intros Hd Hls. unfold line_discount. rewrite Hd.
  change (fdiv zero hundred) with zero.
  destruct ls as [[] | | | [] m e]; try discriminate; reflexivity.
Qed.

Lemma accumulate_no_discount (its : list OrderItem) :
  Forall (fun it => discount_percent it = zero) its ->
  forall a r,
    accumulate its (a, zero) = Ok r -> is_finite (fst r) = true -> snd r = zero.
Proof.
  induction 1 as [| it its Hd Hrest IH]; intros a r Hr Hf; cbn [accumulate] in Hr.
  - inversion Hr. reflexivity.
  - destruct (line_sub it) as [ls |]; cbn [mbind result_bind fst snd] in Hr; [| discriminate].
    pose proof (accumulate_finite_back its _ _ _ Hr Hf) as Hsum.
    apply fadd_finite_inv in Hsum as [_ Hls].
    rewrite (line_discount_none ls it Hd Hls) in Hr.
    exact (IH _ _ Hr Hf).
Qed.

End NoDiscount.

(** X5.  With no item discount and no order discount, and a subtotal that
    did not overflow, [discount_total] is 0.0 and [total == subtotal]. *)
Theorem no_discount_total_is_subtotal (its : list OrderItem) (t : Totals) :
  Forall (fun it => discount_percent it = zero) its ->
  compute_totals its zero = Ok t ->
  is_finite (t_subtotal t) = true ->
  t_discount_total t = zero /\ feq (t_total t) (t_subtotal t) = true.
Proof.
  intros Hd. unfold compute_totals, mbind, result_bind.
  destruct (accumulate its (zero, zero)) as [[sf df] |] eqn:Ha; [| discriminate].
  intros [= <-]. cbn [t_subtotal t_discount_total t_total fst snd]. intros Hf.
  pose proof (round2_finite_inv sf Hf) as Hsf.
  pose proof (accumulate_no_discount its Hd _ _ Ha Hsf) as Hdf. cbn [snd] in Hdf. subst df.
  unfold order_discount, after_item_discounts. cbn [fst snd].
  rewrite fsub_zero_r. change (fdiv zero hundred) with zero.
  destruct sf as [[] | | | sx m e]; try discriminate.
  - split; reflexivity.
  - split; reflexivity.
  - assert (Hod : fmul (S754_finite sx m e) zero = S754_zero sx)
      by (destruct sx; reflexivity).
    rewrite Hod. split; [destruct sx; reflexivity |].
    change (fsub (S754_finite sx m e) (S754_zero sx)) with (S754_finite sx m e).
    apply feq_refl. exact Hf.
Qed.

Lemma no_discount_total_is_subtotal_witness :
  t_discount_total {| t_subtotal := decimal 10000 2; t_discount_total := zero;
                      t_total := decimal 10000 2 |} = zero /\
  feq (t_total {| t_subtotal := decimal 10000 2; t_discount_total := zero;
                  t_total := decimal 10000 2 |})
      (t_subtotal {| t_subtotal := decimal 10000 2; t_discount_total := zero;
                     t_total := decimal 10000 2 |}) = true.
Proof.
  apply (no_discount_total_is_subtotal [Fixtures.example_item_plain]).
  - repeat constructor.
  - vm_compute. reflexivity.
  - vm_compute. reflexivity.
Defined.

(* ===================================================================== *)
(** * More about the handlers *)
(* ===================================================================== *)

Section HandlerResults.

Lemma find_email_absent (s : Store) (e : string) :
  email_free e s -> find_one_customer_by_email e s = (Ok None, s).
Proof.
  intros Hfree. unfold find_one_customer_by_email.
  destruct (list_find _ _) as [[n [k d]] |] eqn:Hf; [| reflexivity].
  exfalso. apply list_find_Some in Hf as (Hl & He & _).
  apply (Hfree k d); [| exact He].
  apply elem_of_map_to_list. apply list_elem_of_lookup. eauto.
Qed.

Lemma create_customer_fresh (c : Customer) (s : Store) :
  email_free (c_email c) s -> (next_id s < 2 ^ 96)%N ->
  create_customer c s
  = (Ok (Customer_json (Some (str (next_id s), new_customer c s))), inserted_customer c s).
Proof.
  intros Hfree Hn. unfold create_customer.
  unfold mbind at 1. unfold M_bind. rewrite (find_email_absent s _ Hfree).
  run. rewrite (ObjectId_str _ Hn). cbn beta iota. cbn [customer].
  rewrite lookup_insert_eq. reflexivity.
Qed.

Lemma get_customer_found (i : string) (s : Store) (k : N) (d : CustomerDoc) :
  ObjectId i = Ok k -> customer s !! k = Some d ->
  get_customer i s = (Ok (Customer_json (Some (str (cd_id d), d))), s).
Proof.
  intros Hi Hd. unfold get_customer. run. rewrite Hi. cbn beta iota. rewrite Hd. reflexivity.
Qed.

Lemma update_customer_found (i : string) (c : Customer) (s : Store) (k : N) (d : CustomerDoc) :
  ObjectId i = Ok k -> customer s !! k = Some d ->
  update_customer i c s
  = (Ok (Customer_json (Some (str (cd_id d), replaced c d))),
     set_customers s (<[k := replaced c d]> (customer s))).
Proof.
  intros Hi Hd. unfold update_customer. run. rewrite Hi. cbn beta iota. rewrite Hd.
  cbn beta iota. cbn [customer]. rewrite lookup_insert_eq. reflexivity.
Qed.

Lemma delete_customer_found (i : string) (s : Store) (k : N) (d : CustomerDoc) :
  ObjectId i = Ok k -> customer s !! k = Some d ->
  delete_customer i s = (Ok Deleted_json, set_customers s (delete k (customer s))).
Proof.
  intros Hi Hd. unfold delete_customer. run. rewrite Hi. cbn beta iota. rewrite Hd. reflexivity.
Qed.

Lemma delete_order_found (i : string) (s : Store) (k : N) (d : OrderDoc) :
  ObjectId i = Ok k -> order s !! k = Some d ->
  delete_order i s = (Ok Deleted_json, set_orders s (delete k (order s))).
Proof.
  intros Hi Hd. unfold delete_order. run. rewrite Hi. cbn beta iota. rewrite Hd. reflexivity.
Qed.

Lemma get_order_found (i : string) (s : Store) (k ck : N) (d : OrderDoc) :
  ObjectId i = Ok k -> order s !! k = Some d ->
  ObjectId (customer_id (o_data d)) = Ok ck ->
  get_order i s
  = (Ok (Order_json (Some (str (o_id d), d))
                    (Some ((fun c => c_name (cd_data c)) <$> customer s !! ck))), s).
Proof.
  intros Hi Hd Hc. unfold get_order, referenced_customer. run.
  rewrite Hi. cbn beta iota. rewrite Hd.
  rewrite (ObjectId_truthy _ _ Hc), Hc. reflexivity.
Qed.

(** The six handlers that take an identifier, on one [ObjectId] refuses. *)
Lemma malformed_id (i : string) (e : exn) (s : Store) :
  ObjectId i = Raise e ->
  get_customer i s = (Raise e, s) /\
  (forall c, update_customer i c s = (Raise e, s)) /\
  delete_customer i s = (Raise e, s) /\
  get_order i s = (Raise e, s) /\
  (forall p, update_order i p s = (Raise e, s)) /\
  delete_order i s = (Raise e, s).
Proof.
  intros Hi.
  unfold get_customer, update_customer, delete_customer, get_order, update_order, delete_order.
  run. rewrite Hi. repeat split; reflexivity.
Qed.

(** The same handlers on a well-formed identifier of no document. *)
Lemma unknown_id (i : string) (k : N) (s : Store) :
  ObjectId i = Ok k ->
  (customer s !! k = None ->
   get_customer i s = (Raise (HTTPException 404 "Customer not found"), s) /\
   (forall c, update_customer i c s = (Raise (HTTPException 404 "Customer not found"), s)) /\
   delete_customer i s = (Raise (HTTPException 404 "Customer not found"), s)) /\
  (order s !! k = None ->
   get_order i s = (Raise (HTTPException 404 "Order not found"), s) /\
   (forall p, update_order i p s = (Raise (HTTPException 404 "Order not found"), s)) /\
   delete_order i s = (Raise (HTTPException 404 "Order not found"), s)).
Proof.
  intros Hi.
  unfold get_customer, update_customer, delete_customer, get_order, update_order, delete_order.
  run. rewrite Hi. cbn beta iota.
  split; intros Hk; rewrite Hk; repeat split; reflexivity.
Qed.

End HandlerResults.

Section SampleStores.

Lemma shop_customers : customer Sample.shop = {[ 0%N := Sample.alice_doc ]}.
Proof. vm_compute. reflexivity. Qed.

Lemma shop_bob_free : email_free (c_email Fixtures.bob) Sample.shop.
Proof.
  intros k d. rewrite shop_customers. intros H.
  apply lookup_singleton_Some in H as [_ <-]. discriminate.
Qed.

Lemma shop_next_id : (next_id Sample.shop < 2 ^ 96)%N.
Proof. vm_compute. reflexivity. Qed.

Lemma shop2_reachable : reachable Fixtures.shop2.
Proof. apply reachable_after, shop_reachable. Qed.

Lemma shop2_alice : customer Fixtures.shop2 !! 0%N = Some Sample.alice_doc.
Proof. vm_compute. reflexivity. Qed.

Lemma shop2_bob : customer Fixtures.shop2 !! 2%N = Some Fixtures.bob_doc.
Proof. vm_compute. reflexivity. Qed.

(** An identifier of ten bytes passes [ObjectId] and is looked up: the
    shop has no such order. *)
Lemma get_order_short_id :
  get_order "0000 0000 0000 0000 0000" Sample.shop
  = (Raise (HTTPException 404 "Order not found"), Sample.shop).
Proof. vm_compute. reflexivity. Qed.

End SampleStores.

(** X6.  In a reachable store where no customer has the email of the new
    one, and while identifiers fit their twelve bytes, [create_customer]
    stores the customer under an identifier no customer had, stamps it,
    returns the stored document with that identifier as a string, and
    leaves the other customers and the orders alone. *)
Theorem create_customer_new (c : Customer) (s : Store) :
  reachable s -> email_free (c_email c) s -> (next_id s < 2 ^ 96)%N ->
  create_customer c s
  = (Ok (Customer_json (Some (str (next_id s), new_customer c s))), inserted_customer c s) /\
  customer s !! next_id s = None /\
  (forall k, k <> next_id s -> customer (inserted_customer c s) !! k = customer s !! k) /\
  order (inserted_customer c s) = order s.
Proof.
  intros Hs Hfree Hn. split; [exact (create_customer_fresh c s Hfree Hn) |].
  split; [| split; [| reflexivity]].
  - destruct (customer s !! next_id s) as [d |] eqn:Hd; [| reflexivity].
    destruct (proj1 (reachable_ids_in_order s Hs) _ _ Hd). lia.
  - intros k Hk. cbn [inserted_customer customer]. apply lookup_insert_ne. congruence.
Qed.

Lemma create_customer_new_witness :
  create_customer Fixtures.bob Sample.shop
  = (Ok (Customer_json (Some (str (next_id Sample.shop), new_customer Fixtures.bob Sample.shop))),
     inserted_customer Fixtures.bob Sample.shop).
Proof.
  exact (proj1 (create_customer_new Fixtures.bob Sample.shop
                  shop_reachable shop_bob_free shop_next_id)).
Defined.

(** X7.  A customer just created is read back: [get_customer] on the
    identifier [create_customer] returned gives the same document, and
    does not change the store. *)
Theorem get_customer_after_create (c : Customer) (s : Store) :
  email_free (c_email c) s -> (next_id s < 2 ^ 96)%N ->
  exists i d s',
    create_customer c s = (Ok (Customer_json (Some (i, d))), s') /\
    cd_data d = c /\
    get_customer i s' = (Ok (Customer_json (Some (i, d))), s').
Proof.
  intros Hfree Hn.
  exists (str (next_id s)), (new_customer c s), (inserted_customer c s).
  split; [exact (create_customer_fresh c s Hfree Hn) |]. split; [reflexivity |].
  apply (get_customer_found _ _ (next_id s) (new_customer c s));
    [exact (ObjectId_str _ Hn) |].
  cbn [inserted_customer customer]. apply lookup_insert_eq.
Qed.

Lemma get_customer_after_create_witness :
  exists i d s',
    create_customer Fixtures.bob Sample.shop = (Ok (Customer_json (Some (i, d))), s') /\
    cd_data d = Fixtures.bob /\
    get_customer i s' = (Ok (Customer_json (Some (i, d))), s').
Proof.
  exact (get_customer_after_create Fixtures.bob Sample.shop shop_bob_free shop_next_id).
Defined.

(** X8.  Each of the six handlers that take an identifier in the path
    lets the [InvalidId] of a malformed one escape, and writes nothing. *)
Theorem handlers_raise_on_malformed_id (i : string) (e : exn) (s : Store) :
  ObjectId i = Raise e ->
  get_customer i s = (Raise e, s) /\
  (forall c, update_customer i c s = (Raise e, s)) /\
  delete_customer i s = (Raise e, s) /\
  get_order i s = (Raise e, s) /\
  (forall p, update_order i p s = (Raise e, s)) /\
  delete_order i s = (Raise e, s).
Proof. exact (malformed_id i e s). Qed.

Lemma handlers_raise_on_malformed_id_witness :
  get_customer "not-an-id" Sample.shop = (Raise InvalidId, Sample.shop) /\
  (forall c, update_customer "not-an-id" c Sample.shop = (Raise InvalidId, Sample.shop)) /\
  delete_customer "not-an-id" Sample.shop = (Raise InvalidId, Sample.shop) /\
  get_order "not-an-id" Sample.shop = (Raise InvalidId, Sample.shop) /\
  (forall p, update_order "not-an-id" p Sample.shop = (Raise InvalidId, Sample.shop)) /\
  delete_order "not-an-id" Sample.shop = (Raise InvalidId, Sample.shop).
Proof.
  apply (handlers_raise_on_malformed_id "not-an-id" InvalidId Sample.shop).
  vm_compute. reflexivity.
Defined.

(** X9.  On a well-formed identifier under which the collection holds
    nothing, reading, updating and deleting answer 404 and write nothing,
    for customers and for orders alike. *)
Theorem handlers_answer_404 (i : string) (k : N) (s : Store) :
  ObjectId i = Ok k ->
  (customer s !! k = None ->
   get_customer i s = (Raise (HTTPException 404 "Customer not found"), s) /\
   (forall c, update_customer i c s = (Raise (HTTPException 404 "Customer not found"), s)) /\
   delete_customer i s = (Raise (HTTPException 404 "Customer not found"), s)) /\
  (order s !! k = None ->
   get_order i s = (Raise (HTTPException 404 "Order not found"), s) /\
   (forall p, update_order i p s = (Raise (HTTPException 404 "Order not found"), s)) /\
   delete_order i s = (Raise (HTTPException 404 "Order not found"), s)).
Proof. exact (unknown_id i k s). Qed.

Lemma handlers_answer_404_witness :
  get_order Sample.alice_id Sample.shop
  = (Raise (HTTPException 404 "Order not found"), Sample.shop).
Proof.
  refine (proj1 (proj2 (handlers_answer_404 Sample.alice_id 0%N Sample.shop _) _)).
  - vm_compute. reflexivity.
  - vm_compute. reflexivity.
Defined.

(** X10.  [update_customer] on a stored customer replaces the five data
    fields by the ones sent and nothing else: [_id], [created_at] and
    [updated_at] stay, the other customers stay, the orders stay; the
    answer is the document as stored. *)
Theorem update_customer_replaces
    (i : string) (c : Customer) (s : Store) (k : N) (d : CustomerDoc) :
  ObjectId i = Ok k -> customer s !! k = Some d ->
  exists d',
    update_customer i c s = (Ok (Customer_json (Some (str (cd_id d), d'))),
                             snd (update_customer i c s)) /\
    customer (snd (update_customer i c s)) !! k = Some d' /\
    cd_data d' = c /\
    cd_id d' = cd_id d /\ cd_created_at d' = cd_created_at d /\
    cd_updated_at d' = cd_updated_at d /\
    (forall k', k' <> k ->
       customer (snd (update_customer i c s)) !! k' = customer s !! k') /\
    order (snd (update_customer i c s)) = order s.
Proof.
  intros Hi Hd. exists (replaced c d).
  rewrite (update_customer_found i c s k d Hi Hd). cbn [snd set_customers customer order].
  split; [reflexivity |]. split; [apply lookup_insert_eq |].
  repeat (split; [reflexivity |]). split; [| reflexivity].
  intros k' Hk'. apply lookup_insert_ne. congruence.
Qed.

Lemma update_customer_replaces_witness :
  exists d',
    update_customer Fixtures.bob_id Sample.alice Fixtures.shop2
    = (Ok (Customer_json (Some (str (cd_id Fixtures.bob_doc), d'))),
       snd (update_customer Fixtures.bob_id Sample.alice Fixtures.shop2)) /\
    customer (snd (update_customer Fixtures.bob_id Sample.alice Fixtures.shop2)) !! 2%N
    = Some d' /\
    cd_data d' = Sample.alice /\
    cd_id d' = cd_id Fixtures.bob_doc /\
    cd_created_at d' = cd_created_at Fixtures.bob_doc /\
    cd_updated_at d' = cd_updated_at Fixtures.bob_doc /\
    (forall k', k' <> 2%N ->
       customer (snd (update_customer Fixtures.bob_id Sample.alice Fixtures.shop2)) !! k'
       = customer Fixtures.shop2 !! k') /\
    order (snd (update_customer Fixtures.bob_id Sample.alice Fixtures.shop2))
    = order Fixtures.shop2.
Proof.
  apply (update_customer_replaces Fixtures.bob_id Sample.alice Fixtures.shop2 2%N
           Fixtures.bob_doc).
  - vm_compute. reflexivity.
  - exact shop2_bob.
Defined.

(** X11.  [update_customer] does not look for the email among the other
    customers: giving a customer the email of another one succeeds, and
    the store then holds two customers with the same email. *)
Theorem update_customer_can_duplicate_email
    (i : string) (c : Customer) (s : Store) (k k' : N) (d d' : CustomerDoc) :
  ObjectId i = Ok k -> customer s !! k = Some d ->
  k' <> k -> customer s !! k' = Some d' ->
  c_email c = c_email (cd_data d') ->
  exists r d1,
    fst (update_customer i c s) = Ok r /\
    customer (snd (update_customer i c s)) !! k = Some d1 /\
    customer (snd (update_customer i c s)) !! k' = Some d' /\
    c_email (cd_data d1) = c_email (cd_data d').
Proof.
  intros Hi Hd Hne Hd' He.
  rewrite (update_customer_found i c s k d Hi Hd). cbn [fst snd set_customers customer].
  eexists _, (replaced c d). split; [reflexivity |].
  split; [apply lookup_insert_eq |].
  split; [| exact He]. rewrite lookup_insert_ne by congruence. exact Hd'.
Qed.

Lemma update_customer_can_duplicate_email_witness :
  exists r d1,
    fst (update_customer Fixtures.bob_id Fixtures.bob_as_alice Fixtures.shop2) = Ok r /\
    customer (snd (update_customer Fixtures.bob_id Fixtures.bob_as_alice Fixtures.shop2)) !! 2%N
    = Some d1 /\
    customer (snd (update_customer Fixtures.bob_id Fixtures.bob_as_alice Fixtures.shop2)) !! 0%N
    = Some Sample.alice_doc /\
    c_email (cd_data d1) = c_email (cd_data Sample.alice_doc).
Proof.
  apply (update_customer_can_duplicate_email Fixtures.bob_id Fixtures.bob_as_alice
           Fixtures.shop2 2%N 0%N Fixtures.bob_doc Sample.alice_doc).
  - vm_compute. reflexivity.
  - exact shop2_bob.
  - discriminate.
  - exact shop2_alice.
  - reflexivity.
Defined.

(** X12.  [delete_customer] on a stored customer removes that customer
    and nothing else.  Afterwards the same identifier is unknown: reading
    and deleting it answer 404, and an order for it is refused with 400. *)
Theorem delete_customer_removes (i : string) (s : Store) (k : N) (d : CustomerDoc) :
  ObjectId i = Ok k -> customer s !! k = Some d ->
  exists s',
    delete_customer i s = (Ok Deleted_json, s') /\
    customer s' = delete k (customer s) /\
    order s' = order s /\
    get_customer i s' = (Raise (HTTPException 404 "Customer not found"), s') /\
    delete_customer i s' = (Raise (HTTPException 404 "Customer not found"), s') /\
    (forall st x l,
        create_order {| oc_customer_id := i; oc_status := st;
                        oc_order_discount_percent := x; oc_items := l |} s'
        = (Raise (HTTPException 400 "Invalid customer_id"), s')).
Proof.
  intros Hi Hd. exists (set_customers s (delete k (customer s))).
  split; [exact (delete_customer_found i s k d Hi Hd) |].
  split; [reflexivity |]. split; [reflexivity |].
  assert (Hgone : customer (set_customers s (delete k (customer s))) !! k = None)
    by apply lookup_delete_eq.
  destruct (proj1 (unknown_id i k _ Hi) Hgone) as (Hget & _ & Hdel).
  split; [exact Hget |]. split; [exact Hdel |].
  intros st x l. apply (create_order_unknown_customer _ _ k); [exact Hi | exact Hgone].
Qed.

Lemma delete_customer_removes_witness :
  exists s',
    delete_customer Fixtures.bob_id Fixtures.shop2 = (Ok Deleted_json, s') /\
    customer s' = delete 2%N (customer Fixtures.shop2) /\
    order s' = order Fixtures.shop2 /\
    get_customer Fixtures.bob_id s' = (Raise (HTTPException 404 "Customer not found"), s') /\
    delete_customer Fixtures.bob_id s' = (Raise (HTTPException 404 "Customer not found"), s') /\
    (forall st x l,
        create_order {| oc_customer_id := Fixtures.bob_id; oc_status := st;
                        oc_order_discount_percent := x; oc_items := l |} s'
        = (Raise (HTTPException 400 "Invalid customer_id"), s')).
Proof.
  apply (delete_customer_removes Fixtures.bob_id Fixtures.shop2 2%N Fixtures.bob_doc).
  - vm_compute. reflexivity.
  - exact shop2_bob.
Defined.

(** X13.  [delete_order] on a stored order removes that order and nothing
    else: the other orders and the customers stay.  Afterwards reading,
    updating and deleting the same identifier answer 404. *)
Theorem delete_order_removes (i : string) (s : Store) (k : N) (d : OrderDoc) :
  ObjectId i = Ok k -> order s !! k = Some d ->
  exists s',
    delete_order i s = (Ok Deleted_json, s') /\
    order s' = delete k (order s) /\
    customer s' = customer s /\
    get_order i s' = (Raise (HTTPException 404 "Order not found"), s') /\
    (forall p, update_order i p s' = (Raise (HTTPException 404 "Order not found"), s')) /\
    delete_order i s' = (Raise (HTTPException 404 "Order not found"), s').
Proof.
  intros Hi Hd. exists (set_orders s (delete k (order s))).
  split; [exact (delete_order_found i s k d Hi Hd) |].
  split; [reflexivity |]. split; [reflexivity |].
  assert (Hgone : order (set_orders s (delete k (order s))) !! k = None)
    by apply lookup_delete_eq.
  exact (proj2 (unknown_id i k _ Hi) Hgone).
Qed.

Lemma delete_order_removes_witness :
  exists s',
    delete_order Sample.order_id Sample.shop = (Ok Deleted_json, s') /\
    order s' = delete 1%N (order Sample.shop) /\
    customer s' = customer Sample.shop /\
    get_order Sample.order_id s' = (Raise (HTTPException 404 "Order not found"), s') /\
    (forall p, update_order Sample.order_id p s'
               = (Raise (HTTPException 404 "Order not found"), s')) /\
    delete_order Sample.order_id s' = (Raise (HTTPException 404 "Order not found"), s').
Proof.
  apply (delete_order_removes Sample.order_id Sample.shop 1%N Sample.kettle_doc).
  - vm_compute. reflexivity.
  - exact shop_order.
Defined.

Section OrdersMore.

Lemma status_or_pending_cases (st : option string) :
  (st = None \/ st = Some EmptyString -> status_or_pending st = "Pending") /\
  (forall v, st = Some v -> v <> EmptyString -> status_or_pending st = v).
Proof.
  split.
  - intros [-> | ->]; reflexivity.
  - intros v -> Hv. destruct v; [congruence | reflexivity].
Qed.

(** Pricing for an update does not see the fields the update did not
    set. *)
Lemma build_update_fields_updated (p : OrderUpdate) (d : OrderDoc) (u : UpdateFields) :
  build_update_fields p d = Ok u -> build_update_fields p (updated u d) = Ok u.
Proof.
  intros Hb. destruct (build_update_fields_Ok p d u Hb) as (Hst & Hit & Hod & _).
  rewrite <- Hb. unfold build_update_fields, pricing_items, pricing_discount, updated, apply_set.
  cbn [o_data items order_discount_percent]. rewrite Hit, Hod.
  destruct (ou_items p), (ou_order_discount_percent p); reflexivity.
Qed.

Lemma updated_updated (u : UpdateFields) (d : OrderDoc) :
  updated u (updated u d) = updated u d.
Proof.
  unfold updated, apply_set. cbn [o_id o_data o_created_at o_updated_at customer_id status
    order_discount_percent items subtotal discount_total total].
  destruct (uf_status u), (uf_items u), (uf_order_discount_percent u), (uf_totals u);
    reflexivity.
Qed.

End OrdersMore.

(** X14.  In a reachable store, [create_order] with a known customer and
    items that can be priced stores the order under an identifier no
    order had, with the customer id, discount and items as sent, the
    totals of the engine, and the status sent, or ["Pending"] when the
    status is missing or empty; it returns the stored document and
    leaves the customers and the other orders alone. *)
Theorem create_order_new
    (p : OrderCreate) (s : Store) (k : N) (c : CustomerDoc) (t : Totals) :
  reachable s ->
  ObjectId (oc_customer_id p) = Ok k -> customer s !! k = Some c ->
  compute_totals (oc_items p) (oc_order_discount_percent p) = Ok t ->
  (next_id s < 2 ^ 96)%N ->
  create_order p s
  = (Ok (Order_json (Some (str (next_id s), new_order p t s)) None), inserted_order p t s) /\
  order s !! next_id s = None /\
  (forall k', k' <> next_id s -> order (inserted_order p t s) !! k' = order s !! k') /\
  customer (inserted_order p t s) = customer s /\
  (oc_status p = None \/ oc_status p = Some EmptyString ->
   status (o_data (new_order p t s)) = "Pending") /\
  (forall v, oc_status p = Some v -> v <> EmptyString ->
   status (o_data (new_order p t s)) = v).
Proof.
  intros Hs Hk Hc Ht Hn.
  split; [exact (create_order_found p s k c t Hk Hc Ht Hn) |].
  split; [| split; [| split; [reflexivity |]]].
  - destruct (order s !! next_id s) as [d |] eqn:Hd; [| reflexivity].
    destruct (proj2 (reachable_ids_in_order s Hs) _ _ Hd). lia.
  - intros k' Hk'. cbn [inserted_order order]. apply lookup_insert_ne. congruence.
  - exact (status_or_pending_cases (oc_status p)).
Qed.

(** X15.  An order just created is read back: [get_order] on the
    identifier [create_order] returned gives the stored document together
    with the name of its customer, and does not change the store. *)
Theorem get_order_after_create
    (p : OrderCreate) (s : Store) (k : N) (c : CustomerDoc) (t : Totals) :
  ObjectId (oc_customer_id p) = Ok k -> customer s !! k = Some c ->
  compute_totals (oc_items p) (oc_order_discount_percent p) = Ok t ->
  (next_id s < 2 ^ 96)%N ->
  exists i d s',
    create_order p s = (Ok (Order_json (Some (i, d)) None), s') /\
    get_order i s' = (Ok (Order_json (Some (i, d)) (Some (Some (c_name (cd_data c))))), s').
Proof.
  intros Hk Hc Ht Hn.
  exists (str (next_id s)), (new_order p t s), (inserted_order p t s).
  split; [exact (create_order_found p s k c t Hk Hc Ht Hn) |].
  rewrite (get_order_found (str (next_id s)) (inserted_order p t s) (next_id s) k
             (new_order p t s) (ObjectId_str _ Hn)).
  - cbn [inserted_order customer]. rewrite Hc. reflexivity.
  - cbn [inserted_order order]. apply lookup_insert_eq.
  - exact Hk.
Qed.

(** X16.  No request that raises has written anything: whatever the
    request, if its handler ends in an exception the store is the one it
    started from (while identifiers fit their twelve bytes, so that the
    one just handed out reads back). *)
Theorem no_partial_success (r : request) (s : Store) (e : exn) :
  (next_id s < 2 ^ 96)%N ->
  fst (handle r s) = Raise e -> after r s = s.
Proof.
  intros Hn. unfold after.
  destruct r as [c | i | i c | i | p | i | i p | i]; cbn [handle].
  - unfold create_customer. run.
    destruct (list_find _ _); cbn [fmap option_fmap option_map snd]; [reflexivity |].
    rewrite (ObjectId_str _ Hn). cbn beta iota. discriminate.
  - intros _. apply get_customer_store.
  - destruct (ObjectId i) as [k |] eqn:Hi.
    + destruct (customer s !! k) as [d |] eqn:Hd.
      * rewrite (update_customer_found i c s k d Hi Hd). discriminate.
      * destruct (proj1 (unknown_id i k s Hi) Hd) as (_ & H & _). rewrite H. reflexivity.
    + destruct (malformed_id i _ s Hi) as (_ & H & _). rewrite H. reflexivity.
  - destruct (ObjectId i) as [k |] eqn:Hi.
    + destruct (customer s !! k) as [d |] eqn:Hd.
      * rewrite (delete_customer_found i s k d Hi Hd). discriminate.
      * destruct (proj1 (unknown_id i k s Hi) Hd) as (_ & _ & H). rewrite H. reflexivity.
    + destruct (malformed_id i _ s Hi) as (_ & _ & H & _). rewrite H. reflexivity.
  - destruct (OrderCreate_valid p); [| reflexivity].
    unfold create_order. run.
    destruct (ObjectId (oc_customer_id p)) as [k |]; [| reflexivity]. cbn beta iota.
    destruct (customer s !! k); [| reflexivity].
    destruct (compute_totals _ _); [| reflexivity]. cbn beta iota.
    rewrite (ObjectId_str _ Hn). cbn beta iota. discriminate.
  - intros _. apply get_order_store.
  - destruct (OrderUpdate_valid p); [| reflexivity].
    destruct (ObjectId i) as [k |] eqn:Hi.
    + destruct (order s !! k) as [d |] eqn:Hd.
      * rewrite (update_order_found i p s k d Hi Hd).
        destruct (build_update_fields p d) as [u |]; [| reflexivity].
        destruct (update_fields_empty u); [reflexivity | discriminate].
      * destruct (proj2 (unknown_id i k s Hi) Hd) as (_ & H & _). rewrite H. reflexivity.
    + destruct (malformed_id i _ s Hi) as (_ & _ & _ & _ & H & _). rewrite H. reflexivity.
  - destruct (ObjectId i) as [k |] eqn:Hi.
    + destruct (order s !! k) as [d |] eqn:Hd.
      * rewrite (delete_order_found i s k d Hi Hd). discriminate.
      * destruct (proj2 (unknown_id i k s Hi) Hd) as (_ & _ & H). rewrite H. reflexivity.
    + destruct (malformed_id i _ s Hi) as (_ & _ & _ & _ & _ & H). rewrite H. reflexivity.
Qed.

(** X17.  [update_order] is idempotent: sending the same update a second
    time gives the same answer and leaves the store as the first left it. *)
Theorem update_order_idempotent (i : string) (p : OrderUpdate) (s : Store) :
  update_order i p (snd (update_order i p s)) = update_order i p s.
Proof.
  rewrite (surjective_pairing (update_order i p s)) at 2.
  destruct (ObjectId i) as [k |] eqn:Hi.
  - destruct (order s !! k) as [d |] eqn:Hd.
    + rewrite (update_order_found i p s k d Hi Hd).
      destruct (build_update_fields p d) as [u |] eqn:Hb.
      * destruct (update_fields_empty u) eqn:Hu; cbn [fst snd].
        -- rewrite (update_order_found i p s k d Hi Hd), Hb, Hu. reflexivity.
        -- rewrite (update_order_found i p _ k (updated u d) Hi)
             by (cbn [set_orders order]; apply lookup_insert_eq).
           rewrite (build_update_fields_updated p d u Hb), Hu, updated_updated.
           cbn [set_orders order customer next_id clock].
           rewrite insert_insert_eq. reflexivity.
      * cbn [fst snd]. rewrite (update_order_found i p s k d Hi Hd), Hb. reflexivity.
    + destruct (proj2 (unknown_id i k s Hi) Hd) as (_ & H & _).
      rewrite !(H p). cbn [fst snd]. apply H.
  - destruct (malformed_id i _ s Hi) as (_ & _ & _ & _ & H & _).
    rewrite !(H p). cbn [fst snd]. apply H.
Qed.

(** X18.  An update that sets no field is a no-op: the stored order is
    returned as it is and the store is not written, not even to refresh
    a timestamp. *)
Theorem update_order_nothing (i : string) (s : Store) (k : N) (d : OrderDoc) :
  ObjectId i = Ok k -> order s !! k = Some d ->
  update_order i {| ou_status := None; ou_order_discount_percent := None;
                    ou_items := None |} s
  = (Ok (Order_json (Some (str (o_id d), d)) None), s).
Proof.
  intros Hi Hd. rewrite (update_order_found i _ s k d Hi Hd). reflexivity.
Qed.

(** X19.  In a reachable store every order names its customer by a
    well-formed identifier, so reading a stored order never fails: it
    returns the document under the identifier asked for, with the name of
    the customer if there still is one and [None] otherwise. *)
Theorem get_order_of_reachable (i : string) (s : Store) (k : N) (d : OrderDoc) :
  reachable s -> ObjectId i = Ok k -> order s !! k = Some d ->
  exists ck,
    ObjectId (customer_id (o_data d)) = Ok ck /\
    get_order i s
    = (Ok (Order_json (Some (str k, d))
                      (Some ((fun c => c_name (cd_data c)) <$> customer s !! ck))), s).
Proof.
  intros Hs Hi Hd.
  destruct (reachable_references s Hs k d Hd) as [ck Hck].
  destruct (proj2 (reachable_ids_in_order s Hs) k d Hd) as [_ Hid].
  exists ck. split; [exact Hck |].
  rewrite (get_order_found i s k ck d Hi Hd Hck), Hid. reflexivity.
Qed.

(** X20.  The handlers of one collection never write the other: no
    request about customers changes the orders (deleting a customer
    cascades to nothing), and no request about orders changes the
    customers. *)
Theorem collections_are_separate (r : request) (s : Store) :
  match r with
  | POST_customers _ | GET_customer _ | PUT_customer _ _ | DELETE_customer _ =>
      order (after r s) = order s
  | POST_orders _ | GET_order _ | PUT_order _ _ | DELETE_order _ =>
      customer (after r s) = customer s
  end.
Proof.
  pose proof (handle_effect r s) as E.
  destruct r as [c | i | i c | i | p | i | i p | i]; unfold after in *; cbn [handle] in *.
  - apply create_customer_order.
  - rewrite get_customer_store. reflexivity.
  - apply update_customer_order.
  - apply delete_customer_order.
  - destruct (OrderCreate_valid p); [| reflexivity].
    unfold create_order. run.
    destruct (ObjectId (oc_customer_id p)) as [k |]; [| reflexivity]. cbn beta iota.
    destruct (customer s !! k); [| reflexivity].
    destruct (compute_totals _ _); [| reflexivity]. cbn beta iota.
    destruct (ObjectId (str (next_id s))); reflexivity.
  - rewrite get_order_store. reflexivity.
  - destruct (OrderUpdate_valid p); [| reflexivity].
    destruct (ObjectId i) as [k |] eqn:Hi.
    + destruct (order s !! k) as [d |] eqn:Hd.
      * exact (proj2 (proj2 (update_order_frame s i k d p Hi Hd))).
      * rewrite update_order_missing; [reflexivity |]. intros k' Hk'. congruence.
    + rewrite update_order_missing; [reflexivity |]. intros k' Hk'. congruence.
  - unfold delete_order. run.
    destruct (ObjectId i) as [k |]; [| reflexivity]. cbn beta iota.
    destruct (order s !! k); reflexivity.
Qed.

Section ListingFacts.

#[global] Instance newer_first_transitive : Transitive newer_first.
Proof. intros a b c. unfold newer_first. lia. Qed.

#[global] Instance newer_first_total : Total newer_first.
Proof. intros a b. unfold newer_first. lia. Qed.

Lemma in_query_spec (st ci : option string) (d : OrderDoc) :
  in_query st ci d = true <->
  (forall v, st = Some v -> v <> EmptyString -> status (o_data d) = v) /\
  (forall v, ci = Some v -> v <> EmptyString -> customer_id (o_data d) = v).
Proof.
  unfold in_query. rewrite andb_true_iff.
  assert (H : forall (o : option string) (x : string),
             match o with
             | Some v => if truthy v then bool_decide (x = v) else true
             | None => true
             end = true <->
             (forall v, o = Some v -> v <> EmptyString -> x = v)).
  { intros [v |] x; [| split; [congruence | reflexivity]].
    destruct v as [| a v]; cbn [truthy].
    - split; [| reflexivity]. intros _ w [= <-] Hw. congruence.
    - rewrite bool_decide_eq_true. split.
      + intros -> w [= <-] _. reflexivity.
      + intros Hx. apply Hx; [reflexivity | discriminate]. }
  rewrite !H. reflexivity.
Qed.

Lemma bind_Ok {A B} (m : M A) (f : A -> M B) (s s' : Store) (a : A) :
  m s = (Ok a, s') -> (m ≫= f) s = f a s'.
Proof. intros H. unfold mbind, M_bind. rewrite H. reflexivity. Qed.

Lemma with_customer_name_listed (s : Store) (d : OrderDoc) (ck : N) :
  ObjectId (customer_id (o_data d)) = Ok ck ->
  with_customer_name d s = (Ok (listed s d), s).
Proof.
  intros Hck. unfold with_customer_name, referenced_customer, listed. run.
  rewrite (ObjectId_truthy _ _ Hck), Hck. reflexivity.
Qed.

(** The loop over documents whose customer ids are well formed. *)
Lemma for_each_listed (s : Store) (docs : list OrderDoc) :
  Forall (fun d => exists ck, ObjectId (customer_id (o_data d)) = Ok ck) docs ->
  for_each with_customer_name docs s = (Ok (listed s <$> docs), s).
Proof.
  induction 1 as [| d docs [ck Hck] Hrest IH]; [reflexivity |].
  cbn [for_each].
  rewrite (bind_Ok _ _ s s (listed s d) (with_customer_name_listed s d ck Hck)).
  rewrite (bind_Ok _ _ s s (listed s <$> docs) IH). reflexivity.
Qed.

End ListingFacts.

(** X21.  In a reachable store [list_orders] never fails and writes
    nothing.  It returns exactly the stored orders that pass the filters,
    a filter being a status or customer id that is given and not empty,
    newest first, each with its identifier as a string and the name of
    its customer, or [None] when the customer is gone. *)
Theorem list_orders_lists (st ci : option string) (s : Store) :
  reachable s ->
  exists docs,
    list_orders st ci s = (Ok (listed s <$> docs), s) /\
    docs ≡ₚ filter (fun d => in_query st ci d = true) (stored_orders s) /\
    StronglySorted newer_first docs /\
    (forall d, d ∈ docs <->
       (exists k, order s !! k = Some d) /\
       (forall v, st = Some v -> v <> EmptyString -> status (o_data d) = v) /\
       (forall v, ci = Some v -> v <> EmptyString -> customer_id (o_data d) = v)).
Proof.
  intros Hs.
  set (docs := merge_sort newer_first
                 (filter (fun d => in_query st ci d = true) (stored_orders s))).
  assert (Hperm : docs ≡ₚ filter (fun d => in_query st ci d = true) (stored_orders s))
    by apply merge_sort_Permutation.
  assert (Hmem : forall d, d ∈ docs <->
                   (exists k, order s !! k = Some d) /\ in_query st ci d = true).
  { intros d. rewrite Hperm, list_elem_of_filter. unfold stored_orders.
    rewrite list_elem_of_fmap. split.
    - intros [Hq ([k d'] & -> & Hin)]. split; [| exact Hq].
      exists k. apply elem_of_map_to_list. exact Hin.
    - intros [[k Hk] Hq]. split; [exact Hq |].
      exists (k, d). split; [reflexivity |]. apply elem_of_map_to_list. exact Hk. }
  exists docs. split; [| split; [exact Hperm | split]].
  - unfold list_orders.
    rewrite (bind_Ok _ _ s s docs) by reflexivity.
    apply for_each_listed. apply Forall_forall. intros d Hd.
    apply Hmem in Hd as [[k Hk] _]. exact (reachable_references s Hs k d Hk).
  - apply StronglySorted_merge_sort; apply _.
  - intros d. rewrite Hmem, in_query_spec. reflexivity.
Qed.

Section MoreSampleFacts.

Lemma shop_alice : customer Sample.shop !! 0%N = Some Sample.alice_doc.
Proof. vm_compute. reflexivity. Qed.

Lemma alice_id_parses : ObjectId Sample.alice_id = Ok 0%N.
Proof. vm_compute. reflexivity. Qed.

Lemma order_id_parses : ObjectId Sample.order_id = Ok 1%N.
Proof. vm_compute. reflexivity. Qed.

Lemma second_order_priced :
  compute_totals (oc_items Fixtures.second_order)
                 (oc_order_discount_percent Fixtures.second_order)
  = Ok Fixtures.second_totals.
Proof. vm_compute. reflexivity. Qed.

End MoreSampleFacts.

Lemma create_order_new_witness :
  create_order Fixtures.second_order Sample.shop
  = (Ok (Order_json (Some (str (next_id Sample.shop),
                           new_order Fixtures.second_order Fixtures.second_totals Sample.shop))
                    None),
     inserted_order Fixtures.second_order Fixtures.second_totals Sample.shop).
Proof.
  exact (proj1 (create_order_new Fixtures.second_order Sample.shop 0%N Sample.alice_doc
                  Fixtures.second_totals shop_reachable alice_id_parses shop_alice
                  second_order_priced shop_next_id)).
Defined.

Lemma get_order_after_create_witness :
  exists i d s',
    create_order Fixtures.second_order Sample.shop = (Ok (Order_json (Some (i, d)) None), s') /\
    get_order i s'
    = (Ok (Order_json (Some (i, d)) (Some (Some (c_name (cd_data Sample.alice_doc))))), s').
Proof.
  exact (get_order_after_create Fixtures.second_order Sample.shop 0%N Sample.alice_doc
           Fixtures.second_totals alice_id_parses shop_alice second_order_priced shop_next_id).
Defined.

Lemma no_partial_success_witness :
  after (POST_orders Fixtures.huge_order) Sample.shop = Sample.shop.
Proof.
  apply (no_partial_success (POST_orders Fixtures.huge_order) Sample.shop OverflowError).
  - exact shop_next_id.
  - vm_compute. reflexivity.
Defined.

Lemma update_order_nothing_witness :
  update_order Sample.order_id
    {| ou_status := None; ou_order_discount_percent := None; ou_items := None |} Sample.shop
  = (Ok (Order_json (Some (str (o_id Sample.kettle_doc), Sample.kettle_doc)) None), Sample.shop).
Proof.
  exact (update_order_nothing Sample.order_id Sample.shop 1%N Sample.kettle_doc
           order_id_parses shop_order).
Defined.

Lemma get_order_of_reachable_witness :
  exists ck,
    ObjectId (customer_id (o_data Sample.kettle_doc)) = Ok ck /\
    get_order Sample.order_id Sample.shop
    = (Ok (Order_json (Some (str 1%N, Sample.kettle_doc))
                      (Some ((fun c => c_name (cd_data c)) <$> customer Sample.shop !! ck))),
       Sample.shop).
Proof.
  exact (get_order_of_reachable Sample.order_id Sample.shop 1%N Sample.kettle_doc
           shop_reachable order_id_parses shop_order).
Defined.

Lemma list_orders_lists_witness :
  exists docs,
    list_orders (Some "Pending") None Sample.shop = (Ok (listed Sample.shop <$> docs), Sample.shop) /\
    docs ≡ₚ filter (fun d => in_query (Some "Pending") None d = true)
                   (stored_orders Sample.shop) /\
    StronglySorted newer_first docs /\
    (forall d, d ∈ docs <->
       (exists k, order Sample.shop !! k = Some d) /\
       (forall v, Some "Pending" = Some v -> v <> EmptyString -> status (o_data d) = v) /\
       (forall v, @None string = Some v -> v <> EmptyString -> customer_id (o_data d) = v)).
Proof.
  exact (list_orders_lists (Some "Pending") None Sample.shop shop_reachable).
Defined.

(** The listing of the sample shop, evaluated. *)
Lemma list_orders_sample :
  fst (list_orders None None Sample.shop)
  = Ok [(Sample.order_id, Sample.kettle_doc, Some "Alice")].
Proof. vm_compute. reflexivity. Qed.

(** X22.  A body for [PUT /orders/{order_id}] that has none of the three
    declared keys, be it empty or full of other keys, validates to an
    update that sets nothing: an existing order is returned as stored and
    the store is not written. *)
Theorem put_order_without_declared_keys
    (json : Type)
    (optional_str : json -> result (option string))
    (optional_float : json -> result (option float))
    (optional_items : json -> result (option (list OrderItem)))
    (i : string) (s : Store) (k : N) (d : OrderDoc) (body : gmap string json) :
  ObjectId i = Ok k -> order s !! k = Some d ->
  body !! "status" = None -> body !! "order_discount_percent" = None ->
  body !! "items" = None ->
  put_order json optional_str optional_float optional_items i body s
  = (Ok (Order_json (Some (str (o_id d), d)) None), s).
Proof.
  intros Hi Hd H1 H2 H3. unfold put_order, OrderUpdate_validate.
  rewrite H1, H2, H3. cbn [field mbind result_bind].
  rewrite (update_order_found i _ s k d Hi Hd). reflexivity.
Qed.

Lemma put_order_without_declared_keys_witness :
  put_order Sample.json Sample.optional_str Sample.optional_float Sample.optional_items
    Sample.order_id {[ "total" := Sample.JNumber (of_Z 0) ]} Sample.shop
  = (Ok (Order_json (Some (str (o_id Sample.kettle_doc), Sample.kettle_doc)) None), Sample.shop).
Proof.
  apply (put_order_without_declared_keys Sample.json Sample.optional_str
           Sample.optional_float Sample.optional_items Sample.order_id Sample.shop 1%N
           Sample.kettle_doc).
  - exact order_id_parses.
  - exact shop_order.
  - reflexivity.
  - reflexivity.
  - reflexivity.
Defined.
